(** * iris-web: alert routes and case-task data access

    A shallow embedding of
    - [source/app/datamgmt/case/case_tasks_db.py] (module [CaseTasksDb]) and
    - [source/app/blueprints/alerts/alerts_routes.py] (module [AlertsRoutes]),
    together with the properties their specification states about them.

    Python code is embedded as state-passing functions in a small state and
    exception monad: a raised exception keeps the state reached so far, as a
    Python exception keeps the mutations already made.  The SQLAlchemy
    session is a pair of table sets, the session's view (pending changes
    included) and the committed one; [db.session.commit()] copies the first
    onto the second and does not fail.  Each state also carries the list of
    the operations asked of the session and of the collaborators, in program
    order.  Code of the application that is not part of the two files
    (helpers of other modules, schemas, hooks) is an interface record whose
    fields are arbitrary functions. *)

From Stdlib Require Import ZArith String Ascii.
From stdpp Require Import gmap strings list fin_maps pretty.

(** ** Python values, exceptions and the effect monad *)

Module Py.

(** JSON values as Flask decodes them (floats left out). [JNull] is [None]. *)
#[warnings="-register-all"]
Inductive json : Type :=
| JNull
| JBool (b : bool)
| JNum (z : Z)
| JStr (s : string)
| JArr (l : list json)
| JObj (kv : list (string * json)).

(** Python truthiness: [None], [False], [0], the empty string, list and
    dict are falsy. *)
Definition truthy (v : json) : bool :=
  match v with
  | JNull => false
  | JBool b => b
  | JNum z => negb (z =? 0)%Z
  | JStr s => negb (String.eqb s "")
  | JArr l => match l with [] => false | _ => true end
  | JObj kv => match kv with [] => false | _ => true end
  end.

(** Truthiness of an optional string ([None] and [""] are falsy). *)
Definition str_truthy (o : option string) : bool :=
  match o with
  | Some s => negb (String.eqb s "")
  | None => false
  end.

Inductive exn_class : Type :=
| ValueError | AttributeError | TypeError | ValidationError | ObjectDeletedError
| OtherException.

(** An exception: its class and [str(e)]. *)
Record exn : Type := Exn { exn_cls : exn_class; exn_str : string }.

Inductive outcome (A : Type) : Type :=
| Val (a : A)
| Raise (e : exn).
Arguments Val {A} a.
Arguments Raise {A} e.

(** State and exceptions; the state survives a raise. *)
Definition M (S A : Type) : Type := S → outcome A * S.

Definition ret {S A} (a : A) : M S A := λ s, (Val a, s).

Definition raise {S A} (e : exn) : M S A := λ s, (Raise e, s).

Definition bind {S A B} (m : M S A) (k : A → M S B) : M S B :=
  λ s, match m s with
       | (Val a, s') => k a s'
       | (Raise e, s') => (Raise e, s')
       end.

Definition get {S} : M S S := λ s, (Val s, s).

Definition modify {S} (f : S → S) : M S unit := λ s, (Val tt, f s).

(** [try: m except Exception as e: h e] *)
Definition try_except {S A} (m : M S A) (h : exn → M S A) : M S A :=
  λ s, match m s with
       | (Val a, s') => (Val a, s')
       | (Raise e, s') => h e s'
       end.

(** [try: m except <class c> as e: h e]; other classes propagate. *)
Definition try_except_class {S A} (c : exn_class → bool)
    (m : M S A) (h : exn → M S A) : M S A :=
  λ s, match m s with
       | (Val a, s') => (Val a, s')
       | (Raise e, s') => if c (exn_cls e) then h e s' else (Raise e, s')
       end.

Declare Scope py_scope.
Delimit Scope py_scope with py.
Notation "x <- m ;; k" := (bind m (λ x, k))
  (at level 100, m at next level, right associativity) : py_scope.
Notation "m ;; k" := (bind m (λ _, k))
  (at level 100, right associativity) : py_scope.

Local Open Scope py_scope.

(** [for x in l: body x], where the body yields [Some r] for [return r] and
    [None] to go on ([continue] or the end of the body). *)
Fixpoint for_each {S A R} (l : list A) (body : A → M S (option R))
    : M S (option R) :=
  match l with
  | [] => ret None
  | x :: l' =>
      r <- body x ;;
      match r with
      | Some v => ret (Some v)
      | None => for_each l' body
      end
  end.

(** [for x in l: body x] without [return]. *)
Fixpoint for_ {S A} (l : list A) (body : A → M S unit) : M S unit :=
  match l with
  | [] => ret tt
  | x :: l' => body x ;; for_ l' body
  end.

(** A comprehension [f(x) for x in l] whose [f] may raise. *)
Fixpoint map_raising {S A B} (f : A → outcome B) (l : list A) : M S (list B) :=
  match l with
  | [] => ret []
  | x :: l' =>
      match f x with
      | Val b => bs <- map_raising f l' ;; ret (b :: bs)
      | Raise e => raise e
      end
  end.

(** The pure part of [map_raising]. *)
Fixpoint map_outcome {A B} (f : A → outcome B) (l : list A) : outcome (list B) :=
  match l with
  | [] => Val []
  | x :: l' =>
      match f x with
      | Val b => match map_outcome f l' with
                 | Val bs => Val (b :: bs)
                 | Raise e => Raise e
                 end
      | Raise e => Raise e
      end
  end.

Definition nl : string := String "010"%char "".
Definition dq : string := String "034"%char "".

(** [s.split(sep)] for a one-character separator. *)
Fixpoint split_on (sep : ascii) (s : string) : list string :=
  match s with
  | EmptyString => [EmptyString]
  | String c s' =>
      if Ascii.eqb c sep then EmptyString :: split_on sep s'
      else match split_on sep s' with
           | [] => [String c EmptyString]
           | w :: ws => String c w :: ws
           end
  end.

(** [sep.join(l)] *)
Fixpoint join (sep : string) (l : list string) : string :=
  match l with
  | [] => ""
  | [x] => x
  | x :: l' => x +:+ sep +:+ join sep l'
  end.

(** Unsigned decimal literals, the part of Python's [int(str)] the examples
    use: digits only, anything else raises [ValueError]. *)
Fixpoint digits_value (acc : Z) (s : string) : option Z :=
  match s with
  | EmptyString => Some acc
  | String c s' =>
      let n := nat_of_ascii c in
      if (48 <=? n)%nat && (n <=? 57)%nat
      then digits_value (acc * 10 + Z.of_nat (n - 48)) s'
      else None
  end.

Definition invalid_literal (s : string) : exn :=
  Exn ValueError ("invalid literal for int() with base 10: '" +:+ s +:+ "'").

Definition decimal_int (s : string) : outcome Z :=
  match s with
  | EmptyString => Raise (invalid_literal s)
  | _ => match digits_value 0 s with
         | Some z => Val z
         | None => Raise (invalid_literal s)
         end
  end.

End Py.

(** ** [app/datamgmt/case/case_tasks_db.py] *)

Module CaseTasksDb.
Import Py.
Local Open Scope py_scope.

(** A [datetime], as a count of microseconds. *)
Definition Time : Type := Z.

(** Modelled from the spec: the model class [CaseTasks] of [app.models] is
    not among the sources; these are the columns the file names (spec, Data
    model: "Task: identifier, title, description, tags, status, open/update
    timestamps, owning user, case reference").  Nullable columns are options;
    [ct_id] is the column [CaseTasks.id], [None] until the row is flushed. *)
Record CaseTasks : Type := mkCaseTasks {
  ct_id : option Z;
  task_title : string;
  task_description : string;
  task_tags : string;
  task_status_id : option Z;
  task_case_id : option Z;
  task_userid_open : option Z;
  task_userid_update : option Z;
  task_open_date : option Time;
  task_last_update : option Time;
  custom_attributes : json;
}.

(** Modelled from the spec: the model class [TaskAssignee] of [app.models]
    (spec: "pure join entity between Task and User; existence = membership"). *)
Record TaskAssignee : Type := mkTaskAssignee {
  task_id : option Z;
  user_id : Z;
}.

(** Modelled from the spec: the model class [User] of
    [app.models.authorization], with the columns the file names ([User.id],
    [User.user], [User.name]). *)
Record User : Type := mkUser {
  u_id : Z;
  u_user : string;
  u_name : string;
}.

Record Tables : Type := mkTables {
  case_tasks : list CaseTasks;
  task_assignee : list TaskAssignee;
  users : list User;
}.

(** The session's view of the tables, the committed tables, and the
    sequence [CaseTasks.id] is drawn from. *)
Record DB : Type := mkDB {
  session : Tables;
  durable : Tables;
  task_seq : Z;
}.

(** What the functions ask of the session and of their collaborators, in
    program order. *)
Inductive Op : Type :=
| OpAddTask (t : CaseTasks)
| OpAddAssignee (ta : TaskAssignee)
| OpDeleteAssignee (tid : option Z) (uid : Z)
| OpUpdateTasksState (caseid : Z)
| OpCommit.

Record State : Type := mkState {
  db : DB;
  ticks : nat;
  ops : list Op;
}.

(** An element of [task_assignee_list]: an integer or a string. *)
Inductive assignee_ref : Type :=
| AInt (z : Z)
| AStr (s : string).

(** What the file calls and does not define: Python's [int] on a string
    ([ValueError] on a malformed one), the successive readings of
    [datetime.now()], [app.datamgmt.states.update_tasks_state] and
    [app.datamgmt.manage.manage_attribute_db.get_default_custom_attributes]. *)
Record Collaborators : Type := mkCollaborators {
  int_of_str : string → outcome Z;
  now_reading : nat → Time;
  update_tasks_state : Z → DB → outcome unit * DB;
  get_default_custom_attributes : string → DB → json;
}.

Definition set_ct_id (i : option Z) (t : CaseTasks) : CaseTasks :=
  mkCaseTasks i (task_title t) (task_description t) (task_tags t)
    (task_status_id t) (task_case_id t) (task_userid_open t)
    (task_userid_update t) (task_open_date t) (task_last_update t)
    (custom_attributes t).

Definition set_task_status_id (v : option Z) (t : CaseTasks) : CaseTasks :=
  mkCaseTasks (ct_id t) (task_title t) (task_description t) (task_tags t)
    v (task_case_id t) (task_userid_open t)
    (task_userid_update t) (task_open_date t) (task_last_update t)
    (custom_attributes t).

Definition set_task_case_id (v : option Z) (t : CaseTasks) : CaseTasks :=
  mkCaseTasks (ct_id t) (task_title t) (task_description t) (task_tags t)
    (task_status_id t) v (task_userid_open t)
    (task_userid_update t) (task_open_date t) (task_last_update t)
    (custom_attributes t).

Definition set_task_userid_open (v : option Z) (t : CaseTasks) : CaseTasks :=
  mkCaseTasks (ct_id t) (task_title t) (task_description t) (task_tags t)
    (task_status_id t) (task_case_id t) v
    (task_userid_update t) (task_open_date t) (task_last_update t)
    (custom_attributes t).

Definition set_task_userid_update (v : option Z) (t : CaseTasks) : CaseTasks :=
  mkCaseTasks (ct_id t) (task_title t) (task_description t) (task_tags t)
    (task_status_id t) (task_case_id t) (task_userid_open t)
    v (task_open_date t) (task_last_update t)
    (custom_attributes t).

Definition set_task_open_date (v : option Time) (t : CaseTasks) : CaseTasks :=
  mkCaseTasks (ct_id t) (task_title t) (task_description t) (task_tags t)
    (task_status_id t) (task_case_id t) (task_userid_open t)
    (task_userid_update t) v (task_last_update t)
    (custom_attributes t).

Definition set_task_last_update (v : option Time) (t : CaseTasks) : CaseTasks :=
  mkCaseTasks (ct_id t) (task_title t) (task_description t) (task_tags t)
    (task_status_id t) (task_case_id t) (task_userid_open t)
    (task_userid_update t) (task_open_date t) v
    (custom_attributes t).

Definition set_custom_attributes (v : json) (t : CaseTasks) : CaseTasks :=
  mkCaseTasks (ct_id t) (task_title t) (task_description t) (task_tags t)
    (task_status_id t) (task_case_id t) (task_userid_open t)
    (task_userid_update t) (task_open_date t) (task_last_update t)
    v.

Definition with_case_tasks (f : list CaseTasks → list CaseTasks) (t : Tables) : Tables :=
  mkTables (f (case_tasks t)) (task_assignee t) (users t).

Definition with_task_assignee (f : list TaskAssignee → list TaskAssignee)
    (t : Tables) : Tables :=
  mkTables (case_tasks t) (f (task_assignee t)) (users t).

Definition with_session (f : Tables → Tables) (d : DB) : DB :=
  mkDB (f (session d)) (durable d) (task_seq d).

Definition with_db (f : DB → DB) (s : State) : State :=
  mkState (f (db s)) (ticks s) (ops s).

Definition record_op (o : Op) (s : State) : State :=
  mkState (db s) (ticks s) (ops s ++ [o]).

(** Flushing gives every pending task row the next value of the sequence. *)
Fixpoint assign_ids (seq : Z) (rows : list CaseTasks) : Z * list CaseTasks :=
  match rows with
  | [] => (seq, [])
  | r :: rs =>
      match ct_id r with
      | Some _ => let '(seq', rs') := assign_ids seq rs in (seq', r :: rs')
      | None =>
          let '(seq', rs') := assign_ids (seq + 1) rs in
          (seq', set_ct_id (Some seq) r :: rs')
      end
  end.

(** [db.session.commit()]: flush, then the session's view is the committed one. *)
Definition commit (d : DB) : DB :=
  let '(seq', rows) := assign_ids (task_seq d) (case_tasks (session d)) in
  let t := with_case_tasks (λ _, rows) (session d) in
  mkDB t t seq'.

Definition db_session_commit : M State unit :=
  modify (λ s, record_op OpCommit (with_db commit s)).

(** [q.first()] on the rows a filter keeps. *)
Definition first {A} (rows : list A) : option A := head rows.

Section functions.
Context (E : Collaborators).

(** [datetime.now()] *)
Definition datetime_now : M State Time :=
  λ s, (Val (now_reading E (ticks s)), mkState (db s) (S (ticks s)) (ops s)).

(** [int(assignee)] *)
Definition py_int (a : assignee_ref) : outcome Z :=
  match a with
  | AInt z => Val z
  | AStr s => int_of_str E s
  end.

(** [TaskAssignee.query.with_entities(TaskAssignee.user_id)
      .filter(TaskAssignee.task_id == task.id).all()] ([== None] is SQL's
    [IS NULL], which is equality of options) *)
Definition cur_assignee_list (task : CaseTasks) (d : DB) : list Z :=
  user_id <$> filter (λ ta, task_id ta = ct_id task) (task_assignee (session d)).

Definition set_cur_assignees (task : CaseTasks) (d : DB) : gset Z :=
  list_to_set (cur_assignee_list task d).

Definition set_assignees (ids : list Z) : gset Z := list_to_set ids.

Definition assignees_to_add (task : CaseTasks) (ids : list Z) (d : DB) : gset Z :=
  set_assignees ids ∖ set_cur_assignees task d.

Definition assignees_to_remove (task : CaseTasks) (ids : list Z) (d : DB) : gset Z :=
  set_cur_assignees task d ∖ set_assignees ids.

(** [User.query.filter(User.id == uid).first()] *)
Definition user_by_id (uid : Z) (d : DB) : option User :=
  first (filter (λ u, u_id u = uid) (users (session d))).

(** The body of the first loop: the join row is added when the user exists. *)
Definition add_assignee (task : CaseTasks) (uid : Z) : M State unit :=
  s <- get ;;
  match user_by_id uid (db s) with
  | Some user =>
      let ta := mkTaskAssignee (ct_id task) (u_id user) in
      modify (λ s, record_op (OpAddAssignee ta)
                     (with_db (with_session (with_task_assignee (λ l, l ++ [ta]))) s))
  | None => ret tt
  end.

(** The body of the second loop: a bulk delete by predicate. *)
Definition remove_assignee (task : CaseTasks) (uid : Z) : M State unit :=
  modify (λ s, record_op (OpDeleteAssignee (ct_id task) uid)
                 (with_db (with_session (with_task_assignee
                    (filter (λ ta, ¬ (task_id ta = ct_id task ∧ user_id ta = uid))))) s)).

(** The two [for] loops run over Python sets, whose order of iteration is
    not specified; [elements] is one such order. *)
Definition update_task_assignees (task : option CaseTasks)
    (task_assignee_list : list assignee_ref) : M State (option CaseTasks) :=
  match task with
  | None => ret None
  | Some task =>
      s <- get ;;
      ids <- map_raising py_int task_assignee_list ;;
      for_ (elements (assignees_to_add task ids (db s))) (add_assignee task) ;;
      for_ (elements (assignees_to_remove task ids (db s))) (remove_assignee task) ;;
      db_session_commit ;;
      ret (Some task)
  end.

(** [update_tasks_state(caseid=caseid)]: the collaborator runs on the
    database; the call is recorded. *)
Definition call_update_tasks_state (caseid : Z) : M State unit :=
  λ s, let '(r, d') := update_tasks_state E caseid (db s) in
       (r, mkState d' (ticks s) (ops s ++ [OpUpdateTasksState caseid])).

(** [CaseTasks.query.filter(CaseTasks.id == task_id,
      CaseTasks.task_case_id == caseid).first()]: the row and its place in
    the session, which stands for the Python object. *)
Definition get_task (task_id : option Z) (caseid : Z) (d : DB)
    : option (nat * CaseTasks) :=
  list_find (λ r, ct_id r = task_id ∧ task_case_id r = Some caseid)
    (case_tasks (session d)).

Definition update_task_status (task_status : option Z) (task_id : option Z)
    (caseid : Z) : M State bool :=
  s <- get ;;
  match get_task task_id caseid (db s) with
  | Some (h, _) =>
      try_except
        (modify (with_db (with_session (with_case_tasks
                   (alter (set_task_status_id task_status) h)))) ;;
         call_update_tasks_state caseid ;;
         db_session_commit ;;
         ret true)
        (λ _, ret false)
  | None => ret false
  end.

(** [db.session.add(task)]: the new object's place in the session. *)
Definition db_session_add_task (t : CaseTasks) : M State nat :=
  s <- get ;;
  modify (λ s, record_op (OpAddTask t)
                 (with_db (with_session (with_case_tasks (λ l, l ++ [t]))) s)) ;;
  ret (length (case_tasks (session (db s)))).

(** Reading the attributes of the object at place [h]; a row a collaborator
    removed raises, as SQLAlchemy does on a deleted instance. *)
Definition read_task (h : nat) : M State CaseTasks :=
  s <- get ;;
  match case_tasks (session (db s)) !! h with
  | Some t => ret t
  | None => raise (Exn ObjectDeletedError "Instance has been deleted")
  end.

Definition add_task (task : CaseTasks) (assignee_id_list : list assignee_ref)
    (user_id : Z) (caseid : Z) : M State CaseTasks :=
  now <- datetime_now ;;
  let task := set_task_case_id (Some caseid) task in
  let task := set_task_userid_open (Some user_id) task in
  let task := set_task_userid_update (Some user_id) task in
  let task := set_task_open_date (Some now) task in
  let task := set_task_last_update (Some now) task in
  s <- get ;;
  let task :=
    set_custom_attributes
      (if truthy (custom_attributes task) then custom_attributes task
       else get_default_custom_attributes E "task" (db s)) task in
  h <- db_session_add_task task ;;
  call_update_tasks_state caseid ;;
  db_session_commit ;;
  t <- read_task h ;;
  update_task_status (task_status_id t) (ct_id t) caseid ;;
  t <- read_task h ;;
  update_task_assignees (Some t) assignee_id_list ;;
  read_task h.

End functions.

(** *** Notions the statements use *)

(** The join rows the first loop adds for [uids]: one for each id whose
    user exists. *)
Definition join_rows (t : CaseTasks) (d : DB) (uids : list Z) : list TaskAssignee :=
  omap (λ uid, (λ u, mkTaskAssignee (ct_id t) (u_id u)) <$> user_by_id uid d) uids.

(** The join table after both loops. *)
Definition reconciled_rows (t : CaseTasks) (ids : list Z) (d : DB) : list TaskAssignee :=
  filter (λ ta, ¬ (task_id ta = ct_id t
                   ∧ user_id ta ∈ elements (assignees_to_remove t ids d)))
    (task_assignee (session d) ++ join_rows t d (elements (assignees_to_add t ids d))).

(** The columns [add_task] fills in. *)
Definition task_core (t : CaseTasks)
    : option Z * option Z * option Z * option Time * option Time * json :=
  (task_case_id t, task_userid_open t, task_userid_update t,
   task_open_date t, task_last_update t, custom_attributes t).

(** The same, for every task row of the session. *)
Definition cores (s : State) : list (option Z * option Z * option Z * option Time
                                     * option Time * json) :=
  task_core <$> case_tasks (session (db s)).

(** [update_tasks_state] updates the state of the case, not its task rows:
    it may flush them, and leaves the columns of [task_core] as they are. *)
Definition keeps_task_rows (E : Collaborators) : Prop :=
  ∀ caseid d,
    task_core <$> case_tasks (session (update_tasks_state E caseid d).2) =
    task_core <$> case_tasks (session d).

(** *** Example data *)

Local Open Scope Z_scope.

(** Collaborators for the examples: [update_tasks_state] commits. *)
Definition demo_env : Collaborators :=
  mkCollaborators decimal_int (λ n, 1000 + Z.of_nat n)
    (λ _ d, (Val tt, commit d)) (λ _ _, JObj [("owner", JStr "soc")]).

Definition demo_task : CaseTasks :=
  mkCaseTasks (Some 1) "Triage" "Look at the alert" "" (Some 1) (Some 10)
    (Some 2) (Some 2) (Some 900) (Some 900) JNull.

(** A task as the schema hands it to [add_task]. *)
Definition new_task : CaseTasks :=
  mkCaseTasks None "Contain" "Isolate the host" "" (Some 1) None None None
    None None JNull.

Definition demo_tables : Tables :=
  mkTables [demo_task] [mkTaskAssignee (Some 1) 3]
    [mkUser 3 "ann" "Ann"; mkUser 5 "bob" "Bob"; mkUser 7 "cy" "Cy"].

Definition demo_state : State :=
  mkState (mkDB demo_tables demo_tables 2) 0 [].

End CaseTasksDb.

(** ** [app/blueprints/alerts/alerts_routes.py] *)

Module AlertsRoutes.
Import Py.
Local Open Scope py_scope.

Definition Time : Type := Z.

(** Modelled from the spec: the model classes [Alert], [Cases],
    [AlertStatus] and [Comments] of [app.models] are not among the sources;
    the records hold the attributes the routes read or assign (spec, Data
    model).  An alert is keyed by [alert_id] in its table and has the status
    column the routes assign and its other columns by name (for [getattr]). *)
Record Alert : Type := mkAlert {
  alert_status_id : option Z;
  alert_fields : list (string * json);
}.

(** A row of [Cases], keyed by [case_id]. *)
Record Case : Type := mkCase {
  name : string;
  description : option string;
}.

(** A row of [AlertStatus], the status registry. *)
Record AlertStatus : Type := mkAlertStatus {
  status_id : Z;
  status_name : string;
}.

(** A row of [Comments]. *)
Record Comment : Type := mkComment {
  comment_text : option string;
  comment_alert_id : option Z;
  comment_user_id : option Z;
  comment_date : option Time;
  comment_update_date : option Time;
}.

Record Tables : Type := mkTables {
  alerts : gmap Z Alert;
  cases : gmap Z Case;
  comments : list Comment;
  alert_status : list AlertStatus;
}.

(** The session's view of the tables and the committed tables. *)
Record DB : Type := mkDB {
  session : Tables;
  durable : Tables;
}.

(** The keyword arguments the import helpers share. *)
Record ImportOptions : Type := mkImportOptions {
  iocs_list : option (list string);
  assets_list : option (list string);
  opt_note : option string;
  opt_import_as_event : option bool;
  opt_case_tags : option string;
}.

(** The object a history entry is added to. *)
Inductive ObjRef : Type :=
| RefAlert (alert_id : Z)
| RefCase (case_id : Z).

(** What a route asks of the session and of its collaborators, in program
    order, each call with its arguments. *)
Inductive Event : Type :=
| EvCommit
| EvSessionAdd (c : Comment)
| EvCreateCaseFromAlert (alert : Z) (o : ImportOptions) (title : option string)
| EvCreateCaseFromAlerts (alerts_list : list Z) (o : ImportOptions) (title : option string)
| EvMergeAlertInCase (alert case : Z) (o : ImportOptions)
| EvSetNewCaseAccess (case_id : Z)
| EvModulesHook (hook : string) (caseid : Z)
| EvHistoryEntry (obj : ObjRef) (action : string)
| EvTrackActivity (msg : string) (caseid : Z) (ctx_less : bool)
| EvSchemaLoad
| EvLogException (e : exn).

Record State : Type := mkState {
  db : DB;
  ticks : nat;
  trace : list Event;
}.

(** [request.json]: [None], the empty object, or an object with its fields
    decoded ([EmptyObject] is falsy and not [None]). *)
Inductive RequestJson (A : Type) : Type :=
| NoJson
| EmptyObject
| Object (d : A).
Arguments NoJson {A}.
Arguments EmptyObject {A}.
Arguments Object {A} d.

(** The keys the escalate and merge routes read with [data.get]; a missing
    key and a [null] both read as [None].  Types as the routes annotate
    them. *)
Record EscalationData : Type := mkEscalationData {
  target_case_id : option Z;
  alert_ids : option string;
  iocs_import_list : option (list string);
  assets_import_list : option (list string);
  note : option string;
  import_as_event : option bool;
  case_tags : option string;
  case_title : option string;
}.

Definition no_escalation_data : EscalationData :=
  mkEscalationData None None None None None None None None.

(** The keys [alerts_batch_update_route] reads: [alert_ids: List[int]] and
    [updates], the latter as sent ([None] when the key is missing). *)
Record BatchUpdateData : Type := mkBatchUpdateData {
  bu_alert_ids : option (list Z);
  bu_updates : option json;
}.

Definition json_data {A} (default : A) (r : RequestJson A) : A :=
  match r with
  | Object d => d
  | _ => default
  end.

(** Modelled from the spec: [response_success] and [response_error] of
    [app.util] are not among the sources; a response is the envelope the spec
    describes ("distinguishing status, message, and data"), with the
    arguments the route passes: [None] stands for an argument left to its
    default. *)
Inductive Payload : Type :=
| PNone
| PCase (case_id : Z) (c : Case)
| PComment (c : Comment)
| PMessages (m : string).

Inductive Response : Type :=
| response_success (msg : option string) (data : Payload)
| response_error (msg : string) (data : Payload) (status : option Z).

(** What the file calls and does not define.  Builtins: [int] on a string,
    [str] and [!=] on values, the readings of [datetime.now()].  Helpers of
    other modules run on the database and may raise; schemas are functions
    of their input.  Alerts and target cases are passed by id, a created case
    as its id and row; [ac_set_new_case_access] is always called with the
    user [None], which is left out. *)
Record Collaborators : Type := mkCollaborators {
  int_of_str : string → outcome Z;
  py_str : json → string;
  py_ne : json → json → bool;
  now_reading : nat → Time;
  create_case_from_alert :
    Z → ImportOptions → option string → DB → outcome (option (Z * Case)) * DB;
  create_case_from_alerts :
    list Z → ImportOptions → option string → DB → outcome (option (Z * Case)) * DB;
  merge_alert_in_case : Z → Z → ImportOptions → DB → outcome unit * DB;
  ac_set_new_case_access : Z → DB → outcome unit * DB;
  modules_hook_case : string → Z * Case → Z → DB → outcome (Z * Case) * DB;
  modules_hook_comment : string → Comment → Z → Z → DB → outcome unit * DB;
  add_obj_history_entry : ObjRef → string → DB → outcome unit * DB;
  track_activity : string → Z → bool → DB → outcome unit * DB;
  alert_schema_load : json → Z → Alert → outcome Alert;
  comment_schema_load : json → outcome Comment;
}.

Definition set_alert_status_id (v : option Z) (a : Alert) : Alert :=
  mkAlert v (alert_fields a).

Definition set_description (v : option string) (c : Case) : Case :=
  mkCase (name c) v.

Definition with_alerts (f : gmap Z Alert → gmap Z Alert) (t : Tables) : Tables :=
  mkTables (f (alerts t)) (cases t) (comments t) (alert_status t).

Definition with_cases (f : gmap Z Case → gmap Z Case) (t : Tables) : Tables :=
  mkTables (alerts t) (f (cases t)) (comments t) (alert_status t).

Definition with_comments (f : list Comment → list Comment) (t : Tables) : Tables :=
  mkTables (alerts t) (cases t) (f (comments t)) (alert_status t).

Definition with_session (f : Tables → Tables) (d : DB) : DB :=
  mkDB (f (session d)) (durable d).

Definition with_db (f : DB → DB) (s : State) : State :=
  mkState (f (db s)) (ticks s) (trace s).

Definition record_event (e : Event) (s : State) : State :=
  mkState (db s) (ticks s) (trace s ++ [e]).

(** [db.session.commit()] *)
Definition commit (d : DB) : DB := mkDB (session d) (session d).

Definition db_session_commit : M State unit :=
  modify (λ s, record_event EvCommit (with_db commit s)).

(** A call of a collaborator that runs on the database. *)
Definition call {A} (ev : Event) (f : DB → outcome A * DB) : M State A :=
  λ s, let '(r, d') := f (db s) in (r, mkState d' (ticks s) (trace s ++ [ev])).

(** A call of a pure collaborator. *)
Definition lift {A} (r : outcome A) : M State A := λ s, (r, s).

Definition first {A} (rows : list A) : option A := head rows.

(** Modelled from the spec: [get_alert_by_id] of
    [app.datamgmt.alerts.alerts_db] is not among the sources; it is the query
    by predicate of the spec's Entity Store: the alert with this id in the
    session, [None] when there is none ("Alert not found"). *)
Definition get_alert_by_id (alert_id : Z) (d : DB) : option Alert :=
  alerts (session d) !! alert_id.

(** Modelled from the spec: [get_case] of [app.datamgmt.case.case_db] is not
    among the sources; the case with this id in the session, [None] when
    there is none ("Target case not found"). *)
Definition get_case (case_id : Z) (d : DB) : option Case :=
  cases (session d) !! case_id.

(** [AlertStatus.query.filter_by(status_name=nm).first().status_id]:
    [first()] is [None] when no row has the name. *)
Definition status_id_by_name (nm : string) : M State Z :=
  s <- get ;;
  match first (filter (λ r, status_name r = nm) (alert_status (session (db s)))) with
  | Some r => ret (status_id r)
  | None => raise (Exn AttributeError "'NoneType' object has no attribute 'status_id'")
  end.

(** [alert.alert_status_id = sid] on the session's object. *)
Definition assign_alert_status (alert_id sid : Z) : M State unit :=
  modify (with_db (with_session (with_alerts
            (alter (set_alert_status_id (Some sid)) alert_id)))).

(** [getattr(alert, key, None)] *)
Definition getattr_alert (alert_id : Z) (a : Alert) (key : string) : json :=
  if String.eqb key "alert_id" then JNum alert_id
  else if String.eqb key "alert_status_id"
  then match alert_status_id a with Some z => JNum z | None => JNull end
  else match first (filter (λ kv, kv.1 = key) (alert_fields a)) with
       | Some kv => kv.2
       | None => JNull
       end.

Definition is_none (v : json) : bool :=
  match v with JNull => true | _ => false end.

(** The Python type name of a value, as error messages print it. *)
Definition type_name (v : json) : string :=
  match v with
  | JNull => "NoneType"
  | JBool _ => "bool"
  | JNum _ => "int"
  | JStr _ => "str"
  | JArr _ => "list"
  | JObj _ => "dict"
  end.

(** [v.items()] *)
Definition py_items (v : json) : outcome (list (string * json)) :=
  match v with
  | JObj kv => Val kv
  | _ => Raise (Exn AttributeError
                  ("'" +:+ type_name v +:+ "' object has no attribute 'items'"))
  end.

Definition import_options (d : EscalationData) (n : option string) : ImportOptions :=
  mkImportOptions (iocs_import_list d) (assets_import_list d) n
    (import_as_event d) (case_tags d).

(** [response_success(data=p)] *)
Definition ok (data : Payload) : Response := response_success None data.

(** [response_error(msg)] *)
Definition error (msg : string) : Response := response_error msg PNone None.

Section routes.
Context (E : Collaborators).

(** [datetime.now()] *)
Definition datetime_now : M State Time :=
  λ s, (Val (now_reading E (ticks s)), mkState (db s) (S (ticks s)) (trace s)).

(** [app.logger.exception(e)] and [app.app.logger.exception(e)]: the
    exception is logged. *)
Definition log_exception (e : exn) : M State unit :=
  modify (record_event (EvLogException e)).

Definition alerts_escalate_route (alert_id caseid : Z)
    (request_json : RequestJson EscalationData) : M State Response :=
  s <- get ;;
  match get_alert_by_id alert_id (db s) with
  | None => ret (error "Alert not found")
  | Some _ =>
      match request_json with
      | NoJson => ret (error "No JSON data provided")
      | _ =>
          let data := json_data no_escalation_data request_json in
          let o := import_options data (note data) in
          try_except
            (sid <- status_id_by_name "Escalated" ;;
             assign_alert_status alert_id sid ;;
             db_session_commit ;;
             case <- call (EvCreateCaseFromAlert alert_id o (case_title data))
                       (create_case_from_alert E alert_id o (case_title data)) ;;
             match case with
             | None => ret (error "Failed to create case from alert")
             | Some case =>
                 call (EvSetNewCaseAccess case.1) (ac_set_new_case_access E case.1) ;;
                 case <- call (EvModulesHook "on_postload_case_create" caseid)
                           (modules_hook_case E "on_postload_case_create" case caseid) ;;
                 call (EvHistoryEntry (RefCase case.1) "created")
                   (add_obj_history_entry E (RefCase case.1) "created") ;;
                 call (EvTrackActivity
                         ("new case " +:+ name case.2 +:+ " created from alert") caseid true)
                   (track_activity E
                      ("new case " +:+ name case.2 +:+ " created from alert") caseid true) ;;
                 ret (ok (PCase case.1 case.2))
             end)
            (λ e, log_exception e ;; ret (error (exn_str e)))
      end
  end.

(** [CaseSchema().dump(case)] for the target case: its row in the session. *)
Definition dump_case (case_id : Z) : M State Payload :=
  s <- get ;;
  match get_case case_id (db s) with
  | Some c => ret (PCase case_id c)
  | None => raise (Exn ObjectDeletedError "Instance has been deleted")
  end.

Definition alerts_merge_route (alert_id caseid : Z)
    (request_json : RequestJson EscalationData) : M State Response :=
  match request_json with
  | NoJson => ret (error "No JSON data provided")
  | _ =>
      let data := json_data no_escalation_data request_json in
      match target_case_id data with
      | None => ret (error "No target case id provided")
      | Some target =>
          s <- get ;;
          match get_alert_by_id alert_id (db s) with
          | None => ret (error "Alert not found")
          | Some _ =>
              match get_case target (db s) with
              | None => ret (error "Target case not found")
              | Some _ =>
                  let o := import_options data (note data) in
                  try_except
                    (sid <- status_id_by_name "Merged" ;;
                     assign_alert_status alert_id sid ;;
                     db_session_commit ;;
                     call (EvMergeAlertInCase alert_id target o)
                       (merge_alert_in_case E alert_id target o) ;;
                     p <- dump_case target ;;
                     ret (ok p))
                    (λ e, ret (error (exn_str e)))
              end
          end
      end
  end.

(** The body of the loop of [alerts_batch_merge_route]. *)
Definition batch_merge_step (target : Z) (o : ImportOptions) (piece : string)
    : M State unit :=
  alert_id <- lift (int_of_str E piece) ;;
  s <- get ;;
  match get_alert_by_id alert_id (db s) with
  | None => ret tt
  | Some _ =>
      sid <- status_id_by_name "Merged" ;;
      assign_alert_status alert_id sid ;;
      db_session_commit ;;
      call (EvMergeAlertInCase alert_id target o)
        (merge_alert_in_case E alert_id target o)
  end.

(** What [alerts_batch_merge_route] appends for a note [n] to a description
    that is [d]. *)
Definition escalation_note (d n : string) : string :=
  if negb (String.eqb d "")
  then nl +:+ nl +:+ "### Escalation note" +:+ nl +:+ nl +:+ n +:+ nl +:+ nl
  else nl +:+ nl +:+ n +:+ nl +:+ nl.

(** [case.description += ... if case.description else ...] *)
Definition append_note (target : Z) (n : string) : M State unit :=
  s <- get ;;
  match get_case target (db s) with
  | None => raise (Exn ObjectDeletedError "Instance has been deleted")
  | Some c =>
      match description c with
      | None =>
          raise (Exn TypeError "unsupported operand type(s) for +=: 'NoneType' and 'str'")
      | Some d =>
          modify (with_db (with_session (with_cases
                    (alter (set_description (Some (d +:+ escalation_note d n))) target))))
      end
  end.

Definition alerts_batch_merge_route (caseid : Z)
    (request_json : RequestJson EscalationData) : M State Response :=
  match request_json with
  | NoJson => ret (error "No JSON data provided")
  | _ =>
      let data := json_data no_escalation_data request_json in
      match target_case_id data with
      | None => ret (error "No target case id provided")
      | Some target =>
          if negb (str_truthy (alert_ids data)) then ret (error "No alert ids provided")
          else
            s <- get ;;
            match get_case target (db s) with
            | None => ret (error "Target case not found")
            | Some _ =>
                try_except
                  (for_ (split_on "," (default "" (alert_ids data)))
                     (batch_merge_step target (import_options data None)) ;;
                   (if str_truthy (note data)
                    then append_note target (default "" (note data)) ;;
                         db_session_commit
                    else ret tt) ;;
                   p <- dump_case target ;;
                   ret (ok p))
                  (λ e, log_exception e ;; ret (error (exn_str e)))
            end
      end
  end.

(** The body of the loop of [alerts_batch_escalate_route]: the list of
    alerts so far, and the list after this id. *)
Definition batch_escalate_step (alerts_list : list Z) (piece : string)
    : M State (list Z) :=
  alert_id <- lift (int_of_str E piece) ;;
  s <- get ;;
  match get_alert_by_id alert_id (db s) with
  | None => ret alerts_list
  | Some _ =>
      sid <- status_id_by_name "Merged" ;;
      assign_alert_status alert_id sid ;;
      db_session_commit ;;
      ret (alerts_list ++ [alert_id])
  end.

(** The loop of [alerts_batch_escalate_route]. *)
Fixpoint batch_escalate_loop (pieces : list string) (alerts_list : list Z)
    : M State (list Z) :=
  match pieces with
  | [] => ret alerts_list
  | piece :: pieces' =>
      alerts_list <- batch_escalate_step alerts_list piece ;;
      batch_escalate_loop pieces' alerts_list
  end.

Definition alerts_batch_escalate_route (caseid : Z)
    (request_json : RequestJson EscalationData) : M State Response :=
  match request_json with
  | NoJson => ret (error "No JSON data provided")
  | _ =>
      let data := json_data no_escalation_data request_json in
      if negb (str_truthy (alert_ids data)) then ret (error "No alert ids provided")
      else
        let o := import_options data (note data) in
        try_except
          (alerts_list <- batch_escalate_loop
                            (split_on "," (default "" (alert_ids data))) [] ;;
           case <- call (EvCreateCaseFromAlerts alerts_list o (case_title data))
                     (create_case_from_alerts E alerts_list o (case_title data)) ;;
           match case with
           | None => ret (error "Failed to create case from alert")
           | Some case =>
               call (EvSetNewCaseAccess case.1) (ac_set_new_case_access E case.1) ;;
               case <- call (EvModulesHook "on_postload_case_create" caseid)
                         (modules_hook_case E "on_postload_case_create" case caseid) ;;
               call (EvHistoryEntry (RefCase case.1) "created")
                 (add_obj_history_entry E (RefCase case.1) "created") ;;
               call (EvTrackActivity
                       ("new case " +:+ name case.2 +:+ " created from alerts") caseid true)
                 (track_activity E
                    ("new case " +:+ name case.2 +:+ " created from alerts") caseid true) ;;
               ret (ok (PCase case.1 case.2))
           end)
          (λ e, log_exception e ;; ret (error (exn_str e)))
  end.

(** The audit lines of an update: one for each key whose old value is not
    [None] and differs from the new one. *)
Definition activity_data (alert_id : Z) (a : Alert) (updates : list (string * json))
    : list string :=
  omap (λ kv,
          let old_value := getattr_alert alert_id a kv.1 in
          if negb (is_none old_value) && py_ne E old_value kv.2
          then Some (dq +:+ kv.1 +:+ dq +:+ " from " +:+ dq +:+ py_str E old_value +:+ dq
                       +:+ " to " +:+ dq +:+ py_str E kv.2 +:+ dq)
          else None)
       updates.

(** The body of the loop of [alerts_batch_update_route]; [Some r] is
    [return r]. *)
Definition batch_update_step (caseid : Z) (updates : json) (alert_id : Z)
    : M State (option Response) :=
  s <- get ;;
  match get_alert_by_id alert_id (db s) with
  | None =>
      ret (Some (error ("Alert with ID " +:+ pretty alert_id +:+ " not found")))
  | Some alert =>
      try_except
        (items <- lift (py_items updates) ;;
         let lines := activity_data alert_id alert items in
         alert' <- call EvSchemaLoad
                     (λ d, (alert_schema_load E updates alert_id alert, d)) ;;
         modify (with_db (with_session (with_alerts (insert alert_id alert')))) ;;
         (match lines with
          | [] => ret tt
          | _ =>
              let msg := "updated alerts #" +:+ pretty alert_id +:+ ": "
                           +:+ join "," lines in
              call (EvTrackActivity msg caseid false) (track_activity E msg caseid false)
          end) ;;
         db_session_commit ;;
         ret None)
        (λ e, ret (Some (error (exn_str e))))
  end.

Definition alerts_batch_update_route (caseid : Z)
    (request_json : RequestJson BatchUpdateData) : M State Response :=
  match request_json with
  | NoJson | EmptyObject => ret (error "No JSON data provided")
  | Object data =>
      let alert_ids := default [] (bu_alert_ids data) in
      let updates := default (JObj []) (bu_updates data) in
      match alert_ids with
      | [] => ret (error "No alert IDs provided")
      | _ =>
          r <- for_each alert_ids (batch_update_step caseid updates) ;;
          match r with
          | Some resp => ret resp
          | None => ret (response_success (Some "Batch update successful") PNone)
          end
      end
  end.

Definition is_validation_error (c : exn_class) : bool :=
  match c with ValidationError => true | _ => false end.

Definition with_comment_alert_id (v : option Z) (c : Comment) : Comment :=
  mkComment (comment_text c) v (comment_user_id c) (comment_date c)
    (comment_update_date c).

Definition with_comment_user_id (v : option Z) (c : Comment) : Comment :=
  mkComment (comment_text c) (comment_alert_id c) v (comment_date c)
    (comment_update_date c).

Definition with_comment_date (v : option Time) (c : Comment) : Comment :=
  mkComment (comment_text c) (comment_alert_id c) (comment_user_id c) v
    (comment_update_date c).

Definition with_comment_update_date (v : option Time) (c : Comment) : Comment :=
  mkComment (comment_text c) (comment_alert_id c) (comment_user_id c)
    (comment_date c) v.

(** [db.session.add(comment)] *)
Definition db_session_add (c : Comment) : M State unit :=
  modify (λ s, record_event (EvSessionAdd c)
                 (with_db (with_session (with_comments (λ l, l ++ [c]))) s)).

(** The route [/alerts/<alert_id>/comments/add]; [current_user_id] is
    [current_user.id] and [body] is [request.get_json()]. *)
Definition case_comment_add (alert_id caseid current_user_id : Z) (body : json)
    : M State Response :=
  try_except_class is_validation_error
    (s <- get ;;
     match get_alert_by_id alert_id (db s) with
     | None => ret (error "Invalid alert ID")
     | Some _ =>
         comment <- call EvSchemaLoad (λ d, (comment_schema_load E body, d)) ;;
         let comment := with_comment_alert_id (Some alert_id) comment in
         let comment := with_comment_user_id (Some current_user_id) comment in
         now1 <- datetime_now ;;
         let comment := with_comment_date (Some now1) comment in
         now2 <- datetime_now ;;
         let comment := with_comment_update_date (Some now2) comment in
         db_session_add comment ;;
         db_session_commit ;;
         call (EvHistoryEntry (RefAlert alert_id) "commented")
           (add_obj_history_entry E (RefAlert alert_id) "commented") ;;
         db_session_commit ;;
         call (EvModulesHook "on_postload_alert_commented" caseid)
           (modules_hook_comment E "on_postload_alert_commented" comment alert_id caseid) ;;
         call (EvTrackActivity ("alert " +:+ dq +:+ pretty alert_id +:+ dq +:+ " commented")
                 caseid false)
           (track_activity E ("alert " +:+ dq +:+ pretty alert_id +:+ dq +:+ " commented")
              caseid false) ;;
         ret (response_success (Some "Alert commented") (PComment comment))
     end)
    (λ e, ret (response_error "Data error" (PMessages (exn_str e)) (Some 400%Z))).

End routes.

(** *** Notions the statements use *)

(** The status of an alert in a set of tables: [None] when there is no
    such alert. *)
Definition status_of (t : Tables) (alert_id : Z) : option (option Z) :=
  alert_status_id <$> (alerts t !! alert_id).

(** The first registry row with this name. *)
Definition registry_row (nm : string) (d : DB) : option AlertStatus :=
  first (filter (λ r, status_name r = nm) (alert_status (session d))).

(** The database once the alert's status has been assigned and committed. *)
Definition status_committed (alert_id sid : Z) (d : DB) : DB :=
  commit (with_session (with_alerts (alter (set_alert_status_id (Some sid)) alert_id)) d).

(** The database once each alert of [batch], in turn, has had its status
    assigned and committed. *)
Definition batch_committed (sid : Z) (d : DB) (batch : list Z) : DB :=
  foldl (λ d id, status_committed id sid d) d batch.

(** A case-creation step failed: it raised, or returned no case. *)
Definition creation_failed (r : outcome (option (Z * Case))) : Prop :=
  match r with
  | Val (Some _) => False
  | _ => True
  end.

(** The ids of a batch that resolve to an alert in [d]. *)
Definition resolved (d : DB) (ids : list Z) : list Z :=
  filter (λ id, is_Some (get_alert_by_id id d)) ids.

(** The alert has the status [sid], in the session and committed. *)
Definition merged_in (sid : Z) (d : DB) (alert_id : Z) : Prop :=
  status_of (session d) alert_id = Some (Some sid) ∧
  status_of (durable d) alert_id = Some (Some sid).

(** [merge_alert_in_case] returns, and leaves the set of alerts, their
    statuses and the status registry as they are; it may commit, so a
    committed status is the one it found or the session's. *)
Definition merge_keeps_alerts (E : Collaborators) : Prop :=
  ∀ a c o d, ∃ d',
    merge_alert_in_case E a c o d = (Val tt, d') ∧
    (∀ id, status_of (session d') id = status_of (session d) id) ∧
    (∀ id, status_of (durable d') id = status_of (durable d) id
           ∨ status_of (durable d') id = status_of (session d') id) ∧
    alert_status (session d') = alert_status (session d).

(** *** Example data *)

Local Open Scope Z_scope.

Definition demo_str (v : json) : string :=
  match v with
  | JNull => "None"
  | JBool true => "True"
  | JBool false => "False"
  | JNum z => pretty z
  | JStr s => s
  | JArr _ => "[...]"
  | JObj _ => "{...}"
  end.

Definition demo_create (title : option string) (o : ImportOptions) (d : DB)
    : outcome (option (Z * Case)) * DB :=
  let c := mkCase (default "New case" title) (opt_note o) in
  (Val (Some (100, c)), commit (with_session (with_cases (insert 100 c)) d)).

Definition demo_merge (a c : Z) (o : ImportOptions) (d : DB) : outcome unit * DB :=
  (Val tt,
   commit (with_session (with_cases
             (alter (λ r, set_description
                            (Some (default "" (description r) +:+ "[alert #"
                                     +:+ pretty a +:+ "]")) r) c)) d)).

Definition demo_comment_load (body : json) : outcome Comment :=
  match body with
  | JObj [("comment_text", JStr t)] => Val (mkComment (Some t) None None None None)
  | _ => Raise (Exn ValidationError "{'comment_text': ['Missing data']}")
  end.

Definition demo_alert_load (updates : json) (id : Z) (a : Alert) : outcome Alert :=
  match updates with
  | JObj kv => Val (mkAlert (alert_status_id a) (kv ++ alert_fields a))
  | _ => Raise (Exn ValidationError "{'_schema': ['Invalid input type.']}")
  end.

(** Collaborators for the examples. *)
Definition demo_env : Collaborators :=
  mkCollaborators decimal_int demo_str
    (λ a b, negb (String.eqb (demo_str a) (demo_str b)))
    (λ n, 1000 + Z.of_nat n)
    (λ _ o title d, demo_create title o d)
    (λ _ o title d, demo_create title o d)
    demo_merge
    (λ _ d, (Val tt, d))
    (λ _ c _ d, (Val c, d))
    (λ _ _ _ _ d, (Val tt, d))
    (λ _ _ d, (Val tt, d))
    (λ _ _ _ d, (Val tt, d))
    demo_alert_load demo_comment_load.

(** The same, with a case creation that fails. *)
Definition failing_env : Collaborators :=
  mkCollaborators decimal_int demo_str
    (λ a b, negb (String.eqb (demo_str a) (demo_str b)))
    (λ n, 1000 + Z.of_nat n)
    (λ _ _ _ d, (Raise (Exn OtherException "could not create the case"), d))
    (λ _ _ _ d, (Val None, d))
    demo_merge
    (λ _ d, (Val tt, d))
    (λ _ c _ d, (Val c, d))
    (λ _ _ _ _ d, (Val tt, d))
    (λ _ _ d, (Val tt, d))
    (λ _ _ _ d, (Val tt, d))
    demo_alert_load demo_comment_load.

Definition demo_registry : list AlertStatus :=
  [mkAlertStatus 1 "New"; mkAlertStatus 4 "Escalated"; mkAlertStatus 5 "Merged"].

Definition demo_alerts : gmap Z Alert :=
  <[5 := mkAlert (Some 1) [("alert_title", JStr "Beacon")]]>
  (<[9 := mkAlert (Some 1) [("alert_title", JStr "Phish")]]> ∅).

(** Alerts 5 and 9 exist, 7 does not; case 10 has a description. *)
Definition demo_tables : Tables :=
  mkTables demo_alerts (<[10 := mkCase "Intrusion" (Some "Initial report")]> ∅)
    [] demo_registry.

Definition demo_state : State := mkState (mkDB demo_tables demo_tables) 0 [].

(** The same, with an empty description for case 10. *)
Definition blank_tables : Tables :=
  mkTables demo_alerts (<[10 := mkCase "Intrusion" (Some "")]> ∅) [] demo_registry.

Definition blank_state : State := mkState (mkDB blank_tables blank_tables) 0 [].

Definition demo_batch (n : option string) : RequestJson EscalationData :=
  Object (mkEscalationData (Some 10) (Some "5,7,9") None None n None None
            (Some "Campaign")).

End AlertsRoutes.

(** ** [case_tasks_db.py]: the assignees of a task, as listed *)

Module CaseTasksDbMore.
Import Py CaseTasksDb.

(** An entry of the attribute [task_assignees]: the dict with the keys
    ['user'], ['name'] and ['id']. *)
Record Member : Type := mkMember {
  m_user : string;
  m_name : string;
  m_id : Z;
}.

Definition member_of (u : User) : Member := mkMember (u_user u) (u_name u) (u_id u).

(** [TaskAssignee.query.with_entities(TaskAssignee.task_id, User.user,
      User.id, User.name).join(TaskAssignee.user)
      .filter(TaskAssignee.task_id == task_id).all()].  The relationship
    [TaskAssignee.user] belongs to the model class, which is not among the
    sources; it is taken to be the user the row's [user_id] references (spec:
    "pure join entity between Task and User"), so the join is on
    [TaskAssignee.user_id == User.id].  A row is the task id and the user's
    columns. *)
Definition get_assignee_list (task_id : option Z) (d : DB) : list (option Z * User) :=
  ta ← filter (λ ta, CaseTasksDb.task_id ta = task_id) (task_assignee (session d));
  u ← filter (λ u, u_id u = user_id ta) (users (session d));
  [(CaseTasksDb.task_id ta, u)].

(** The body of the loop that fills [membership_list]. *)
Definition add_member (membership_list : gmap (option Z) (list Member))
    (member : option Z * User) : gmap (option Z) (list Member) :=
  match membership_list !! member.1 with
  | None => <[member.1 := [member_of member.2]]> membership_list
  | Some l => <[member.1 := l ++ [member_of member.2]]> membership_list
  end.

(** The task, and the value [setattr] gives its attribute [task_assignees]. *)
Definition get_task_with_assignees (task_id : option Z) (case_id : Z) (d : DB)
    : option (CaseTasks * list Member) :=
  match get_task task_id case_id d with
  | None => None
  | Some (_, task) =>
      let membership_list := foldl add_member ∅ (get_assignee_list task_id d) in
      Some (task, default [] (membership_list !! ct_id task))
  end.

(** *** Notions the statements use *)

(** [update_tasks_state] returns, and leaves the status column of the task
    rows as it is. *)
Definition keeps_task_status (E : Collaborators) : Prop :=
  ∀ caseid d, ∃ d',
    update_tasks_state E caseid d = (Val tt, d') ∧
    task_status_id <$> case_tasks (session d') = task_status_id <$> case_tasks (session d).

(** [update_tasks_state] returns. *)
Definition tasks_state_returns (E : Collaborators) : Prop :=
  ∀ caseid d, (update_tasks_state E caseid d).1 = Val tt.

(** *** Example data *)

Local Open Scope Z_scope.

(** The example state with a second task, assigned to user 5. *)
Definition busy_state : State :=
  let t := with_task_assignee (λ l, l ++ [mkTaskAssignee (Some 2) 5]) demo_tables in
  mkState (mkDB t t 3) 0 [].

End CaseTasksDbMore.

(** ** [alerts_routes.py]: the update, delete, unmerge and filter routes *)

Module AlertsRoutesMore.
Import Py AlertsRoutes.
Local Open Scope py_scope.

(** [filtered_data], the page [get_filtered_alerts] returns: the attributes
    the route reads. *)
Record Pagination : Type := mkPagination {
  total : Z;
  items : list (Z * Alert);
  pages : Z;
  page : Z;
  next_num : option Z;
  has_next : bool;
}.

(** The data these routes answer with: [AlertSchema().dump(alert)], the
    dict [{'alert_id': alert_id}], and the dict of a page of alerts with its
    keys ['total'], ['alerts'], ['last_page'], ['current_page'] and
    ['next_page']. *)
Inductive AlertData : Type :=
| DAlert (alert_id : Z) (a : Alert)
| DAlertId (alert_id : Z)
| DPage (total : Z) (alerts : list (Z * Alert)) (last_page current_page : Z)
    (next_page : option Z).

(** Modelled from the spec: the envelope of [response_success] and
    [response_error] of [app.util] (see [Response]), with the data of these
    routes. *)
Inductive AlertResponse : Type :=
| alert_success (msg : option string) (data : AlertData)
| alert_error (msg : string).

(** What these routes call and the file does not define, all of
    [app.datamgmt.alerts.alerts_db].  [get_filtered_alerts] is taken with the
    filters it is given from [request.args] fixed, as a function of
    [alert_ids]; [unmerge_alert_from_case] returns the pair
    [(success, message)], [success] a Python value. *)
Record Helpers : Type := mkHelpers {
  delete_similar_alert_cache : Z → DB → outcome unit * DB;
  unmerge_alert_from_case : Z → Z → DB → outcome (json * string) * DB;
  get_filtered_alerts : option (list Z) → DB → outcome (option Pagination) * DB;
}.

(** A call of one of these helpers: it runs on the database. *)
Definition run {A} (f : DB → outcome A * DB) : M State A :=
  λ s, let '(r, d') := f (db s) in (r, mkState d' (ticks s) (trace s)).

(** [c in s] for a character [c]. *)
Fixpoint contains (c : ascii) (s : string) : bool :=
  match s with
  | EmptyString => false
  | String c' s' => Ascii.eqb c' c || contains c s'
  end.

Definition is_value_error (c : exn_class) : bool :=
  match c with ValueError => true | _ => false end.

(** [v is False] *)
Definition is_False (v : json) : bool :=
  match v with JBool false => true | _ => false end.

Section routes.
Context (E : Collaborators) (H : Helpers).

(** The statements of [alerts_list_route] that read [alert_ids]: [inl] is
    the response returned from the handler, [inr] the value of [alert_ids]. *)
Definition list_alert_ids (alert_ids_str : option string)
    : M State (AlertResponse + option (list Z)) :=
  if str_truthy alert_ids_str
  then
    let s := default "" alert_ids_str in
    try_except_class is_value_error
      (alert_ids <- (if contains "," s
                     then map_raising (int_of_str E) (split_on "," s)
                     else alert_id <- lift (int_of_str E s) ;; ret [alert_id]) ;;
       ret (inr (Some alert_ids)))
      (λ _, ret (inl (alert_error "Invalid alert id")))
  else ret (inr None).

(** The rest of [alerts_list_route]: the query and the page it answers
    with. *)
Definition list_page (alert_ids : option (list Z)) : M State AlertResponse :=
  filtered_data <- run (get_filtered_alerts H alert_ids) ;;
  match filtered_data with
  | None => ret (alert_error "Filtering error")
  | Some p =>
      ret (alert_success None
             (DPage (total p) (items p) (pages p) (page p)
                (if has_next p then next_num p else None)))
  end.

(** The route [/alerts/filter]; [alert_ids_str] is
    [request.args.get('alert_ids')]. *)
Definition alerts_list_route (alert_ids_str : option string) : M State AlertResponse :=
  r <- list_alert_ids alert_ids_str ;;
  match r with
  | inl resp => ret resp
  | inr alert_ids => list_page alert_ids
  end.


(** [db.session.delete(alert)] *)
Definition db_session_delete (alert_id : Z) : M State unit :=
  modify (with_db (with_session (with_alerts (delete alert_id)))).

(** The route [/alerts/delete/<alert_id>]. *)
Definition alerts_delete_route (alert_id caseid : Z) : M State AlertResponse :=
  s <- get ;;
  match get_alert_by_id alert_id (db s) with
  | None => ret (alert_error "Alert not found")
  | Some _ =>
      try_except
        (run (delete_similar_alert_cache H alert_id) ;;
         db_session_delete alert_id ;;
         db_session_commit ;;
         ret (alert_success None (DAlertId alert_id)))
        (λ e, ret (alert_error (exn_str e)))
  end.

(** [AlertSchema().dump(alert)]: the alert's row in the session. *)
Definition dump_alert (alert_id : Z) : M State AlertData :=
  s <- get ;;
  match get_alert_by_id alert_id (db s) with
  | Some a => ret (DAlert alert_id a)
  | None => raise (Exn ObjectDeletedError "Instance has been deleted")
  end.

(** The route [/alerts/unmerge/<alert_id>]. *)
Definition alerts_unmerge_route (alert_id caseid : Z)
    (request_json : RequestJson EscalationData) : M State AlertResponse :=
  match request_json with
  | NoJson => ret (alert_error "No JSON data provided")
  | _ =>
      match target_case_id (json_data no_escalation_data request_json) with
      | None => ret (alert_error "No target case id provided")
      | Some target =>
          s <- get ;;
          match get_alert_by_id alert_id (db s) with
          | None => ret (alert_error "Alert not found")
          | Some _ =>
              match get_case target (db s) with
              | None => ret (alert_error "Target case not found")
              | Some _ =>
                  try_except
                    (r <- run (unmerge_alert_from_case H alert_id target) ;;
                     if is_False r.1 then ret (alert_error r.2)
                     else
                       p <- dump_alert alert_id ;;
                       ret (alert_success (Some r.2) p))
                    (λ e, ret (alert_error (exn_str e)))
              end
          end
      end
  end.

End routes.

(** *** Example data *)

Local Open Scope Z_scope.

(** A schema that rejects every update of alert 9. *)
Definition locked_alert_load (updates : json) (id : Z) (a : Alert) : outcome Alert :=
  if id =? 9 then Raise (Exn ValidationError "{'alert_id': ['Alert 9 is read-only.']}")
  else demo_alert_load updates id a.

(** The example collaborators, with that schema. *)
Definition locked_env : Collaborators :=
  mkCollaborators decimal_int demo_str
    (λ a b, negb (String.eqb (demo_str a) (demo_str b)))
    (λ n, 1000 + Z.of_nat n)
    (λ _ o title d, demo_create title o d)
    (λ _ o title d, demo_create title o d)
    demo_merge
    (λ _ d, (Val tt, d))
    (λ _ c _ d, (Val c, d))
    (λ _ _ _ _ d, (Val tt, d))
    (λ _ _ d, (Val tt, d))
    (λ _ _ _ d, (Val tt, d))
    locked_alert_load demo_comment_load.

(** The example collaborators, with a [merge_alert_in_case] and an
    [add_obj_history_entry] that fail. *)
Definition raising_env : Collaborators :=
  mkCollaborators decimal_int demo_str
    (λ a b, negb (String.eqb (demo_str a) (demo_str b)))
    (λ n, 1000 + Z.of_nat n)
    (λ _ o title d, demo_create title o d)
    (λ _ o title d, demo_create title o d)
    (λ _ _ _ d, (Raise (Exn OtherException "case is closed"), d))
    (λ _ d, (Val tt, d))
    (λ _ c _ d, (Val c, d))
    (λ _ _ _ _ d, (Val tt, d))
    (λ _ _ d, (Raise (Exn OtherException "history is full"), d))
    (λ _ _ _ d, (Val tt, d))
    demo_alert_load demo_comment_load.

Definition demo_page (alert_ids : option (list Z)) (d : DB) : option Pagination :=
  let rows := match alert_ids with
              | None => map_to_list (alerts (session d))
              | Some ids => omap (λ i, (λ a, (i, a)) <$> alerts (session d) !! i) ids
              end in
  Some (mkPagination (Z.of_nat (length rows)) rows 1 1 None false).

(** The example state with an empty status registry. *)
Definition bare_state : State :=
  let t := mkTables demo_alerts (cases demo_tables) [] [] in
  mkState (mkDB t t) 0 [].

(** Helpers for the examples. *)
Definition demo_helpers : Helpers :=
  mkHelpers (λ _ d, (Val tt, d))
    (λ a c d, (Val (JBool true, "Alert unmerged"), d))
    (λ ids d, (Val (demo_page ids d), d)).

(** The same, with a cache deletion that fails. *)
Definition failing_helpers : Helpers :=
  mkHelpers (λ _ d, (Raise (Exn OtherException "cache unavailable"), d))
    (λ a c d, (Val (JBool false, "Alert is not merged in this case"), d))
    (λ ids d, (Val None, d)).

End AlertsRoutesMore.

(** ** Properties of [case_tasks_db.py] *)

Module CaseTasksDbProps.
Import Py CaseTasksDb.
Local Open Scope py_scope.

Section reconciler.
Context (E : Collaborators).

Lemma map_raising_outcome {S A B} (f : A → outcome B) (l : list A) (s : S) :
  map_raising f l s = (map_outcome f l, s).
Proof.
  induction l as [|a l IH]; simpl; [done|].
  destruct (f a); [|done]. unfold bind. rewrite IH.
  by destruct (map_outcome f l).
Qed.

Lemma user_by_id_Some uid d u : user_by_id uid d = Some u → u_id u = uid.
Proof.
  unfold user_by_id, first. intros H.
  apply head_Some_elem_of in H. by apply list_elem_of_filter in H as [? _].
Qed.

Lemma filter_all {A} (P : A → Prop) `{∀ x, Decision (P x)} (l : list A) :
  (∀ x, x ∈ l → P x) → filter P l = l.
Proof.
  induction l as [|a l IH]; intros Hl; [done|].
  rewrite filter_cons_True by (apply Hl; left).
  f_equal. apply IH. intros x Hx. apply Hl. by right.
Qed.

Lemma join_rows_frame t f d l :
  join_rows t (with_session (with_task_assignee f) d) l = join_rows t d l.
Proof. reflexivity. Qed.

Lemma for_add_assignee t l s :
  for_ l (add_assignee t) s =
  (Val tt,
   mkState (with_session (with_task_assignee (λ rows, rows ++ join_rows t (db s) l)) (db s))
     (ticks s) (ops s ++ (OpAddAssignee <$> join_rows t (db s) l))).
Proof.
  revert s. induction l as [|uid l IH]; intros s.
  - destruct s as [[[ct ta us] du sq] tk os]; simpl.
    unfold ret, with_session, with_task_assignee; simpl. by rewrite !app_nil_r.
  - simpl. unfold bind at 1. unfold add_assignee at 1. unfold bind, get.
    destruct (user_by_id uid (db s)) as [u|] eqn:Hu; simpl.
    + unfold modify. rewrite IH. simpl.
      destruct s as [[[ct ta us] du sq] tk os]; simpl.
      unfold with_session, with_task_assignee; simpl.
      by rewrite <- !app_assoc.
    + unfold ret. by rewrite IH.
Qed.

Lemma for_remove_assignee t l s :
  for_ l (remove_assignee t) s =
  (Val tt,
   mkState (with_session (with_task_assignee
              (filter (λ ta, ¬ (task_id ta = ct_id t ∧ user_id ta ∈ l)))) (db s))
     (ticks s) (ops s ++ (OpDeleteAssignee (ct_id t) <$> l))).
Proof.
  revert s. induction l as [|uid l IH]; intros s.
  - destruct s as [[[ct ta us] du sq] tk os]; simpl.
    unfold ret, with_session, with_task_assignee; simpl. rewrite app_nil_r.
    do 3 f_equal. f_equal.
    symmetry. apply filter_all. intros x _ [_ H]. by apply elem_of_nil in H.
  - simpl. unfold bind at 1. unfold remove_assignee at 1. unfold modify.
    rewrite IH. destruct s as [[[ct ta us] du sq] tk os]; simpl.
    unfold with_session, with_task_assignee; simpl.
    rewrite <- app_assoc. simpl. do 3 f_equal. f_equal.
    rewrite list_filter_filter. apply list_filter_iff.
    intros x. rewrite elem_of_cons. tauto.
Qed.

Lemma update_task_assignees_run t l ids s :
  map_outcome (py_int E) l = Val ids →
  update_task_assignees E (Some t) l s =
  (Val (Some t),
   mkState
     (commit (with_session (with_task_assignee (λ _, reconciled_rows t ids (db s))) (db s)))
     (ticks s)
     (ops s ++ (OpAddAssignee <$> join_rows t (db s) (elements (assignees_to_add t ids (db s))))
            ++ (OpDeleteAssignee (ct_id t) <$> elements (assignees_to_remove t ids (db s)))
            ++ [OpCommit])).
Proof.
  intros Hids. unfold update_task_assignees.
  unfold bind at 1. unfold get. unfold bind at 1.
  rewrite map_raising_outcome, Hids.
  unfold bind at 1. rewrite for_add_assignee.
  unfold bind at 1. rewrite for_remove_assignee.
  unfold bind, db_session_commit, modify, ret; simpl.
  unfold reconciled_rows. rewrite <- !app_assoc.
  destruct s as [[[ct ta us] du sq] tk os]; cbn.
  unfold record_op, with_db; cbn. by rewrite <- !app_assoc.
Qed.

Lemma assign_ids_flushed seq rows :
  Forall (λ r, is_Some (ct_id r)) rows → assign_ids seq rows = (seq, rows).
Proof.
  induction 1 as [|r rows [i Hi] _ IH]; simpl; [done|].
  by rewrite Hi, IH.
Qed.

Lemma assign_ids_Some seq rows :
  Forall (λ r, is_Some (ct_id r)) (assign_ids seq rows).2.
Proof.
  revert seq. induction rows as [|r rows IH]; intros seq; simpl; [constructor|].
  destruct (ct_id r) as [i|] eqn:Hi.
  - specialize (IH seq). destruct (assign_ids seq rows); simpl in *.
    constructor; [by rewrite Hi|done].
  - specialize (IH (seq + 1)%Z). destruct (assign_ids (seq + 1) rows); simpl in *.
    constructor; [by eexists|done].
Qed.

Lemma commit_commit d : commit (commit d) = commit d.
Proof.
  unfold commit. pose proof (assign_ids_Some (task_seq d) (case_tasks (session d))) as H.
  destruct (assign_ids (task_seq d) (case_tasks (session d))) as [seq' rows]; simpl in *.
  by rewrite (assign_ids_flushed _ _ H).
Qed.

Lemma elem_of_set_cur_assignees t d uid :
  uid ∈ set_cur_assignees t d ↔ mkTaskAssignee (ct_id t) uid ∈ task_assignee (session d).
Proof.
  unfold set_cur_assignees, cur_assignee_list.
  rewrite elem_of_list_to_set, list_elem_of_fmap. split.
  - intros ([tid u] & -> & H). apply list_elem_of_filter in H as [Ht H].
    simpl in *. by subst tid.
  - intros H. exists (mkTaskAssignee (ct_id t) uid). split; [done|].
    by apply list_elem_of_filter.
Qed.

Lemma elem_of_join_rows t d l ta :
  ta ∈ join_rows t d l ↔
  ∃ uid, uid ∈ l ∧ is_Some (user_by_id uid d) ∧ ta = mkTaskAssignee (ct_id t) uid.
Proof.
  unfold join_rows. rewrite list_elem_of_omap. split.
  - intros (uid & Hin & Hu). destruct (user_by_id uid d) as [u|] eqn:Hq; [|done].
    simpl in Hu. injection Hu as <-. exists uid.
    by rewrite (user_by_id_Some _ _ _ Hq).
  - intros (uid & Hin & [u Hq] & ->). exists uid. split; [done|].
    by rewrite Hq, <- (user_by_id_Some _ _ _ Hq).
Qed.

Lemma commit_task_assignee d :
  task_assignee (session (commit d)) = task_assignee (session d).
Proof. unfold commit. by destruct (assign_ids _ _). Qed.

Lemma commit_users d : users (session (commit d)) = users (session d).
Proof. unfold commit. by destruct (assign_ids _ _). Qed.

Lemma commit_durable d : durable (commit d) = session (commit d).
Proof. unfold commit. by destruct (assign_ids _ _). Qed.

Lemma user_by_id_commit uid d : user_by_id uid (commit d) = user_by_id uid d.
Proof. unfold user_by_id. by rewrite commit_users. Qed.

(** The database a successful reconciliation leaves. *)
Lemma elem_of_reconciled t ids d uid :
  uid ∈ set_cur_assignees t
          (commit (with_session (with_task_assignee (λ _, reconciled_rows t ids d)) d)) ↔
  uid ∈ set_assignees ids ∧ (uid ∈ set_cur_assignees t d ∨ is_Some (user_by_id uid d)).
Proof.
  rewrite elem_of_set_cur_assignees, commit_task_assignee. simpl.
  unfold reconciled_rows. rewrite list_elem_of_filter, elem_of_app, elem_of_join_rows.
  simpl. rewrite <- elem_of_set_cur_assignees.
  unfold assignees_to_remove, assignees_to_add.
  setoid_rewrite elem_of_elements. setoid_rewrite elem_of_difference.
  destruct (decide (uid ∈ set_cur_assignees t d)) as [Hc|Hc];
    destruct (decide (uid ∈ set_assignees ids)) as [Hd|Hd].
  - split; (split; [tauto|by left]).
  - split; [|tauto]. intros [Hn _]. exfalso. apply Hn. simpl. tauto.
  - split.
    + intros [_ [?|(u & [? _] & ? & [= ->])]]; [done|]. eauto.
    + intros [_ [?|Hu]]; [done|]. split; [tauto|]. right. exists uid. eauto.
  - split.
    + intros [_ [?|(u & [? _] & ? & [= ->])]]; done.
    + tauto.
Qed.

Lemma with_rows_id d :
  with_session (with_task_assignee (λ _, task_assignee (session d))) d = d.
Proof. by destruct d as [[ct ta us] du sq]. Qed.

Lemma join_rows_None t d l :
  (∀ uid, uid ∈ l → user_by_id uid d = None) → join_rows t d l = [].
Proof.
  induction l as [|uid l IH]; intros Hl; [done|].
  unfold join_rows in *. simpl. rewrite (Hl uid) by left. simpl.
  apply IH. intros u Hu. apply Hl. by right.
Qed.

(** C1 (amended): once a reconciliation with the desired ids [l] has run, a
    second one with the same [l] computes an empty [to_remove], a [to_add]
    that holds only ids of users that do not exist (so an empty one when every
    desired id is a user's), and changes nothing: the database is the same
    and the only operation is the commit.  And reconciling with the desired
    set equal to the current one computes both sets empty and only commits. *)
Theorem update_task_assignees_idempotent
    (t : CaseTasks) (l : list assignee_ref) (ids : list Z) (s : State) :
  map_outcome (py_int E) l = Val ids →
  let s1 := (update_task_assignees E (Some t) l s).2 in
  assignees_to_remove t ids (db s1) = ∅ ∧
  (∀ uid, uid ∈ assignees_to_add t ids (db s1) → user_by_id uid (db s1) = None) ∧
  ((∀ uid, uid ∈ ids → is_Some (user_by_id uid (db s))) →
     assignees_to_add t ids (db s1) = ∅) ∧
  update_task_assignees E (Some t) l s1 =
    (Val (Some t), mkState (db s1) (ticks s1) (ops s1 ++ [OpCommit])) ∧
  (set_assignees ids = set_cur_assignees t (db s) →
     assignees_to_add t ids (db s) = ∅ ∧
     assignees_to_remove t ids (db s) = ∅ ∧
     update_task_assignees E (Some t) l s =
       (Val (Some t), mkState (commit (db s)) (ticks s) (ops s ++ [OpCommit]))).
Proof.
  intros Hids s1. subst s1. rewrite (update_task_assignees_run t l ids s Hids).
  cbn [snd db ticks ops]. set (d1 := commit _).
  assert (Hrem : assignees_to_remove t ids d1 = ∅).
  { apply set_eq. intros uid. unfold assignees_to_remove.
    rewrite elem_of_difference. unfold d1. rewrite elem_of_reconciled.
    split; [tauto|]. intros H. by apply not_elem_of_empty in H. }
  assert (Hadd : ∀ uid, uid ∈ assignees_to_add t ids d1 → user_by_id uid d1 = None).
  { intros uid. unfold assignees_to_add. rewrite elem_of_difference.
    unfold d1 at 1. rewrite elem_of_reconciled. intros [Hd Hn].
    unfold d1. rewrite user_by_id_commit.
    change (user_by_id uid (with_session _ (db s))) with (user_by_id uid (db s)).
    destruct (user_by_id uid (db s)) eqn:Hu; [|done].
    exfalso. apply Hn. split; [done|]. right. by eexists. }
  split; [done|]. split; [done|]. split; [|split].
  - intros Hall. apply set_eq. intros uid. split; [|intros H; by apply not_elem_of_empty in H].
    intros Hin. specialize (Hadd uid Hin).
    unfold assignees_to_add in Hin. apply elem_of_difference in Hin as [Hin _].
    apply elem_of_list_to_set in Hin. destruct (Hall uid Hin) as [u Hu].
    unfold d1 in Hadd. rewrite user_by_id_commit in Hadd.
    change (user_by_id uid (with_session _ (db s))) with (user_by_id uid (db s)) in Hadd.
    congruence.
  - rewrite (update_task_assignees_run t l ids _ Hids). cbn [snd db ticks ops].
    unfold reconciled_rows. rewrite Hrem, elements_empty.
    rewrite join_rows_None by (intros uid Hu; apply Hadd; by apply elem_of_elements).
    rewrite app_nil_r. simpl.
    rewrite filter_all by (intros x _ [_ H]; by apply elem_of_nil in H).
    rewrite with_rows_id. unfold d1. by rewrite commit_commit.
  - intros Heq.
    assert (Ha : assignees_to_add t ids (db s) = ∅)
      by (unfold assignees_to_add; rewrite Heq; apply difference_diag_L).
    assert (Hr : assignees_to_remove t ids (db s) = ∅)
      by (unfold assignees_to_remove; rewrite Heq; apply difference_diag_L).
    split; [done|]. split; [done|].
    clear Hrem Hadd. subst d1.
    unfold reconciled_rows. rewrite Ha, Hr, elements_empty. simpl.
    rewrite app_nil_r.
    rewrite filter_all by (intros x _ [_ H]; by apply elem_of_nil in H).
    by rewrite with_rows_id.
Qed.

(** C7: in a reconciliation whose ids convert, an id of [to_add] with no
    user is skipped (the call still returns the task, and the join table holds
    no row for it), an id of [to_add] whose user exists has its join row
    (task, user) in the session and committed, and the operations are the
    adds, then the deletes, then one commit, which is the last of them. *)
Theorem update_task_assignees_adds_existing_users
    (t : CaseTasks) (l : list assignee_ref) (ids : list Z) (s : State) :
  map_outcome (py_int E) l = Val ids →
  ∃ s1 adds,
    update_task_assignees E (Some t) l s = (Val (Some t), s1) ∧
    (∀ uid, uid ∈ assignees_to_add t ids (db s) → user_by_id uid (db s) = None →
       mkTaskAssignee (ct_id t) uid ∉ task_assignee (session (db s1))) ∧
    (∀ uid, uid ∈ assignees_to_add t ids (db s) → is_Some (user_by_id uid (db s)) →
       mkTaskAssignee (ct_id t) uid ∈ task_assignee (session (db s1)) ∧
       mkTaskAssignee (ct_id t) uid ∈ task_assignee (durable (db s1))) ∧
    (∀ ta, ta ∈ adds ↔
       ∃ uid, uid ∈ assignees_to_add t ids (db s) ∧ is_Some (user_by_id uid (db s)) ∧
              ta = mkTaskAssignee (ct_id t) uid) ∧
    ops s1 = ops s ++ (OpAddAssignee <$> adds)
                   ++ (OpDeleteAssignee (ct_id t) <$> elements (assignees_to_remove t ids (db s)))
                   ++ [OpCommit].
Proof.
  intros Hids. eexists. exists (join_rows t (db s) (elements (assignees_to_add t ids (db s)))).
  split; [by apply update_task_assignees_run|]. cbn [db ops].
  assert (Hmem : ∀ uid, uid ∈ assignees_to_add t ids (db s) →
            (mkTaskAssignee (ct_id t) uid ∈ reconciled_rows t ids (db s) ↔
             is_Some (user_by_id uid (db s)))).
  { intros uid Hin. pose proof (elem_of_reconciled t ids (db s) uid) as H.
    rewrite elem_of_set_cur_assignees, commit_task_assignee in H. simpl in H.
    rewrite H. unfold assignees_to_add in Hin. apply elem_of_difference in Hin. tauto. }
  split; [|split; [|split]].
  - intros uid Hin Hu. rewrite commit_task_assignee. simpl.
    rewrite (Hmem uid Hin), Hu. by intros [? ?].
  - intros uid Hin Hu. rewrite commit_durable, commit_task_assignee. simpl.
    by rewrite (Hmem uid Hin).
  - intros ta. rewrite elem_of_join_rows. by setoid_rewrite elem_of_elements.
  - done.
Qed.

(** C9: without a task the reconciler returns [None], its not-found
    result, and changes nothing: no table, no operation, no commit.  [None]
    is returned in that case only: with a task the call returns that task or
    raises. *)
Theorem update_task_assignees_no_task (l : list assignee_ref) (s : State) :
  update_task_assignees E None l s = (Val None, s) ∧
  ∀ t l' s',
    (update_task_assignees E (Some t) l' s').1 = Val (Some t) ∨
    ∃ e, (update_task_assignees E (Some t) l' s').1 = Raise e.
Proof.
  split; [reflexivity|]. intros t l' s'.
  destruct (map_outcome (py_int E) l') as [ids|e] eqn:Hids.
  - left. by rewrite (update_task_assignees_run t l' ids s' Hids).
  - right. exists e. unfold update_task_assignees, bind, get.
    by rewrite map_raising_outcome, Hids.
Qed.
End reconciler.

(** An instance: desired ids 5, "7" and 99 (no user 99) for the example task. *)
Lemma update_task_assignees_idempotent_witness :
  map_outcome (py_int demo_env) [AInt 5; AStr "7"; AInt 99] = Val [5; 7; 99]%Z ∧
  let s1 := (update_task_assignees demo_env (Some demo_task)
               [AInt 5; AStr "7"; AInt 99] demo_state).2 in
  assignees_to_remove demo_task [5; 7; 99]%Z (db s1) = ∅ ∧
  update_task_assignees demo_env (Some demo_task) [AInt 5; AStr "7"; AInt 99] s1 =
    (Val (Some demo_task), mkState (db s1) (ticks s1) (ops s1 ++ [OpCommit])).
Proof.
  split; [reflexivity|].
  destruct (update_task_assignees_idempotent demo_env demo_task
              [AInt 5; AStr "7"; AInt 99] [5; 7; 99]%Z demo_state eq_refl)
    as (H1 & _ & _ & H4 & _).
  exact (conj H1 H4).
Defined.

(** C1 as stated fails: with a desired id (99) that is no user's, the second
    reconciliation computes [to_add] = {99}, not the empty set. *)
Lemma update_task_assignees_second_to_add :
  (update_task_assignees demo_env (Some demo_task) [AInt 99] demo_state).1
    = Val (Some demo_task) ∧
  elements (assignees_to_add demo_task [99%Z]
              (db (update_task_assignees demo_env (Some demo_task) [AInt 99] demo_state).2))
    = [99%Z].
Proof. split; vm_compute; reflexivity. Qed.

(** An instance: 99 has no user and gets no row, 5 has one and gets its row. *)
Lemma update_task_assignees_adds_existing_users_witness :
  map_outcome (py_int demo_env) [AInt 5; AStr "7"; AInt 99] = Val [5; 7; 99]%Z ∧
  ∃ s1, update_task_assignees demo_env (Some demo_task) [AInt 5; AStr "7"; AInt 99]
          demo_state = (Val (Some demo_task), s1) ∧
        (mkTaskAssignee (Some 1%Z) 99 ∉ task_assignee (session (db s1))) ∧
        (mkTaskAssignee (Some 1%Z) 5 ∈ task_assignee (session (db s1))).
Proof.
  split; [reflexivity|].
  destruct (update_task_assignees_adds_existing_users demo_env demo_task
              [AInt 5; AStr "7"; AInt 99] [5; 7; 99]%Z demo_state eq_refl)
    as (s1 & adds & Hrun & Hno & Hyes & _).
  exists s1. split; [exact Hrun|]. split.
  - apply (Hno 99%Z); vm_compute; reflexivity.
  - apply (Hyes 5%Z); vm_compute; [reflexivity|by eexists].
Defined.

Section add_task.
Context (E : Collaborators).

Lemma assign_ids_core seq rows :
  task_core <$> (assign_ids seq rows).2 = task_core <$> rows.
Proof.
  revert seq. induction rows as [|r rows IH]; intros seq; simpl; [done|].
  destruct (ct_id r).
  - specialize (IH seq). destruct (assign_ids seq rows); cbn [snd] in *.
    rewrite !fmap_cons. by rewrite IH.
  - specialize (IH (seq + 1)%Z). destruct (assign_ids (seq + 1) rows); cbn [snd] in *.
    rewrite !fmap_cons. by rewrite IH.
Qed.

Lemma commit_core d :
  task_core <$> case_tasks (session (commit d)) = task_core <$> case_tasks (session d).
Proof.
  unfold commit. pose proof (assign_ids_core (task_seq d) (case_tasks (session d))) as H.
  by destruct (assign_ids _ _).
Qed.

Lemma db_session_commit_cores s r s' :
  db_session_commit s = (r, s') → r = Val tt ∧ cores s' = cores s.
Proof.
  unfold db_session_commit, modify. intros [= <- <-]. split; [done|].
  unfold cores. simpl. apply commit_core.
Qed.

Lemma call_update_tasks_state_cores caseid s r s' :
  keeps_task_rows E →
  call_update_tasks_state E caseid s = (r, s') → cores s' = cores s.
Proof.
  intros HE. unfold call_update_tasks_state.
  pose proof (HE caseid (db s)) as H.
  destruct (update_tasks_state E caseid (db s)) as [r0 d']. intros [= <- <-].
  exact H.
Qed.

Lemma alter_status_core v (h : nat) (rows : list CaseTasks) :
  task_core <$> alter (set_task_status_id v) h rows = task_core <$> rows.
Proof.
  rewrite (list_fmap_alter task_core _ (λ c, c)).
  - by apply list_alter_id.
  - apply Forall_forall. by intros [].
Qed.

Lemma update_task_status_cores st tid caseid s r s' :
  keeps_task_rows E →
  update_task_status E st tid caseid s = (r, s') →
  (∃ b, r = Val b) ∧ cores s' = cores s.
Proof.
  intros HE. unfold update_task_status. unfold bind at 1. unfold get.
  destruct (get_task tid caseid (db s)) as [[h ?]|]; [|intros [= <- <-]; eauto].
  unfold try_except, bind, modify.
  destruct (call_update_tasks_state E caseid _) as [r1 s1] eqn:H1.
  apply (call_update_tasks_state_cores _ _ _ _ HE) in H1.
  assert (Hc : cores s1 = cores s).
  { rewrite H1. unfold cores. simpl. apply alter_status_core. }
  destruct r1 as [[]|e].
  - destruct (db_session_commit s1) as [r2 s2] eqn:H2.
    apply db_session_commit_cores in H2 as [-> H2].
    unfold ret. intros [= <- <-]. split; [eauto|congruence].
  - unfold ret. intros [= <- <-]. eauto.
Qed.

Lemma update_task_assignees_cores t l s r s' :
  update_task_assignees E (Some t) l s = (r, s') → cores s' = cores s.
Proof.
  destruct (map_outcome (py_int E) l) as [ids|e] eqn:Hids.
  - rewrite (update_task_assignees_run E t l ids s Hids). intros [= <- <-].
    unfold cores. simpl. by rewrite commit_core.
  - unfold update_task_assignees, bind, get. rewrite map_raising_outcome, Hids.
    by intros [= <- <-].
Qed.

Lemma read_task_Val h s t s' :
  read_task h s = (Val t, s') → s' = s ∧ cores s !! h = Some (task_core t).
Proof.
  unfold read_task, bind, get, cores. rewrite list_lookup_fmap.
  destruct (_ !! h); [|by intros [=]]. unfold ret. intros [= <- <-]. done.
Qed.

Lemma add_task_core task l user_id caseid s t s' :
  keeps_task_rows E →
  add_task E task l user_id caseid s = (Val t, s') →
  task_core t =
    (Some caseid, Some user_id, Some user_id,
     Some (now_reading E (ticks s)), Some (now_reading E (ticks s)),
     if truthy (custom_attributes task) then custom_attributes task
     else get_default_custom_attributes E "task" (db s)).
Proof.
  intros HE. unfold add_task.
  unfold bind at 1. unfold datetime_now at 1.
  unfold bind at 1. unfold get at 1.
  unfold bind at 1. unfold db_session_add_task, bind, get, modify, ret. cbn [db ticks ops].
  set (task' := set_custom_attributes _ _).
  set (s1 := record_op _ _).
  assert (Hh : cores s1 !! length (case_tasks (session (db s))) = Some (task_core task')).
  { unfold cores, s1. destruct s as [[[ct ta us] du sq] tk os]. simpl.
    rewrite fmap_app. rewrite lookup_app_r by (by rewrite length_fmap).
    by rewrite length_fmap, Nat.sub_diag. }
  set (h := length _) in *.
  destruct (call_update_tasks_state E caseid s1) as [[[]|e] s2] eqn:H2; [|by intros [=]].
  apply (call_update_tasks_state_cores _ _ _ _ HE) in H2.
  destruct (db_session_commit s2) as [r3 s3] eqn:H3.
  apply db_session_commit_cores in H3 as [-> H3].
  destruct (read_task h s3) as [[t3|e] s3'] eqn:R3; [|by intros [=]].
  apply read_task_Val in R3 as [-> R3].
  destruct (update_task_status E _ _ caseid s3) as [r4 s4] eqn:H4.
  apply (update_task_status_cores _ _ _ _ _ _ HE) in H4 as [[b ->] H4].
  destruct (read_task h s4) as [[t4|e] s4'] eqn:R4; [|by intros [=]].
  apply read_task_Val in R4 as [-> R4].
  destruct (update_task_assignees E (Some t4) l s4) as [[r5|e] s5] eqn:H5; [|by intros [=]].
  apply update_task_assignees_cores in H5.
  intros R5. apply read_task_Val in R5 as [-> R5].
  rewrite H5, H4, H3, H2, Hh in R5.
  assert (task_core task' = task_core t) as <- by congruence. reflexivity.
Qed.

(** C10: a task [add_task] returns has its open date equal to its last
    update, both the one reading of the clock taken on entry, its opening
    user and its updating user both the creating user, its case the given
    case and, when no custom attributes came with it, the default custom
    attributes of ["task"]. *)
Theorem add_task_stamps
    (task : CaseTasks) (l : list assignee_ref) (user_id caseid : Z)
    (s s' : State) (t : CaseTasks) :
  keeps_task_rows E →
  add_task E task l user_id caseid s = (Val t, s') →
  task_open_date t = Some (now_reading E (ticks s)) ∧
  task_last_update t = task_open_date t ∧
  task_userid_open t = Some user_id ∧
  task_userid_update t = task_userid_open t ∧
  task_case_id t = Some caseid ∧
  (truthy (custom_attributes task) = false →
     custom_attributes t = get_default_custom_attributes E "task" (db s)) ∧
  (truthy (custom_attributes task) = true →
     custom_attributes t = custom_attributes task).
Proof.
  intros HE Hrun. pose proof (add_task_core _ _ _ _ _ _ _ HE Hrun) as Hc.
  unfold task_core in Hc. injection Hc as -> -> -> -> -> ->.
  repeat split; try done; by intros ->.
Qed.
End add_task.

Lemma demo_env_keeps_task_rows : keeps_task_rows demo_env.
Proof. intros caseid d. simpl. apply commit_core. Qed.

(** An instance: a new task added to case 10 by user 2 at clock reading 1000. *)
Lemma add_task_stamps_witness :
  keeps_task_rows demo_env ∧
  (∃ t s', add_task demo_env new_task [AInt 5; AStr "7"; AInt 99] 2 10 demo_state
             = (Val t, s') ∧
           task_open_date t = Some 1000%Z ∧ task_last_update t = task_open_date t ∧
           task_case_id t = Some 10%Z).
Proof.
  split; [exact demo_env_keeps_task_rows|].
  destruct (add_task demo_env new_task [AInt 5; AStr "7"; AInt 99] 2 10 demo_state)
    as [r s'] eqn:Hrun.
  assert (Hr : ∃ t, r = Val t) by (vm_compute in Hrun; injection Hrun as <- _; eauto).
  destruct Hr as [t ->]. exists t, s'. split; [reflexivity|].
  destruct (add_task_stamps demo_env new_task _ 2%Z 10%Z demo_state s' t
              demo_env_keeps_task_rows Hrun) as (H1 & H2 & _ & _ & H5 & _).
  exact (conj H1 (conj H2 H5)).
Defined.

End CaseTasksDbProps.

(** ** Properties of [alerts_routes.py] *)

Module AlertsRoutesProps.
Import Py AlertsRoutes.
Local Open Scope py_scope.

(** One step of a route: the next call of a collaborator, whose result on
    the current database is [H]. *)
Ltac run_call H :=
  unfold bind at 1; unfold call at 1; cbn [db ticks trace]; rewrite H.

Section route_props.
Context (E : Collaborators).

Lemma status_id_by_name_run nm r0 s :
  registry_row nm (db s) = Some r0 →
  status_id_by_name nm s = (Val (status_id r0), s).
Proof. unfold status_id_by_name, bind, get, registry_row. by intros ->. Qed.

Lemma status_of_committed alert_id sid d a :
  get_alert_by_id alert_id d = Some a →
  status_of (session (status_committed alert_id sid d)) alert_id = Some (Some sid) ∧
  status_of (durable (status_committed alert_id sid d)) alert_id = Some (Some sid).
Proof.
  unfold get_alert_by_id, status_of, status_committed. simpl. intros H.
  rewrite lookup_alter_eq, H. done.
Qed.

(** C5: a merge request that names a target case fails with "Alert not
    found" when the alert is absent and with the different message "Target
    case not found" when the alert exists and the case is absent; in both
    cases the state is the one the route found: no status assigned, nothing
    committed, no collaborator called. *)
Theorem alerts_merge_route_not_found
    (alert_id caseid target : Z) (data : EscalationData) (s : State) :
  target_case_id data = Some target →
  (get_alert_by_id alert_id (db s) = None →
     alerts_merge_route E alert_id caseid (Object data) s =
       (Val (error "Alert not found"), s)) ∧
  (is_Some (get_alert_by_id alert_id (db s)) → get_case target (db s) = None →
     alerts_merge_route E alert_id caseid (Object data) s =
       (Val (error "Target case not found"), s)) ∧
  error "Alert not found" ≠ error "Target case not found".
Proof.
  intros Ht. unfold alerts_merge_route. simpl. rewrite Ht. unfold bind, get.
  split; [|split].
  - by intros ->.
  - intros [a ->] ->. done.
  - done.
Qed.

(** C2: in single-alert escalation with the alert present, a JSON body and
    an "Escalated" row in the registry, the alert's status is set to that row's
    id and committed before [create_case_from_alert] is called (the commit
    precedes the call in the trace, and the call runs on a database whose
    committed status is already the new one); when the creation then fails,
    by raising or by returning no case, the route answers with an error and
    undoes nothing: it leaves the database as the failed step left it, so
    the committed status stays "Escalated" whenever that step did not
    touch it. *)
Theorem alerts_escalate_route_keeps_status
    (alert_id caseid : Z) (req : RequestJson EscalationData) (s : State)
    (a : Alert) (r0 : AlertStatus)
    (res : outcome (option (Z * Case))) (d2 : DB) :
  get_alert_by_id alert_id (db s) = Some a →
  req ≠ NoJson →
  registry_row "Escalated" (db s) = Some r0 →
  let data := json_data no_escalation_data req in
  let o := import_options data (note data) in
  let d1 := status_committed alert_id (status_id r0) (db s) in
  create_case_from_alert E alert_id o (case_title data) d1 = (res, d2) →
  creation_failed res →
  status_of (durable d2) alert_id = status_of (durable d1) alert_id →
  status_of (durable d1) alert_id = Some (Some (status_id r0)) ∧
  ∃ msg s' tl,
    alerts_escalate_route E alert_id caseid req s = (Val (error msg), s') ∧
    db s' = d2 ∧
    trace s' = trace s ++ EvCommit :: EvCreateCaseFromAlert alert_id o (case_title data) :: tl ∧
    status_of (durable (db s')) alert_id = Some (Some (status_id r0)).
Proof.
  intros Ha Hreq Hreg data o d1 Hcreate Hfail Hframe.
  destruct (status_of_committed alert_id (status_id r0) (db s) a Ha) as [_ Hd1].
  split; [exact Hd1|].
  unfold alerts_escalate_route. unfold bind at 1. unfold get at 1. rewrite Ha.
  assert (Hrun : ∃ msg s' tl,
    try_except
      (sid <- status_id_by_name "Escalated" ;;
       assign_alert_status alert_id sid ;;
       db_session_commit ;;
       case <- call (EvCreateCaseFromAlert alert_id o (case_title data))
                 (create_case_from_alert E alert_id o (case_title data)) ;;
       match case with
       | None => ret (error "Failed to create case from alert")
       | Some case =>
           call (EvSetNewCaseAccess case.1) (ac_set_new_case_access E case.1) ;;
           case <- call (EvModulesHook "on_postload_case_create" caseid)
                     (modules_hook_case E "on_postload_case_create" case caseid) ;;
           call (EvHistoryEntry (RefCase case.1) "created")
             (add_obj_history_entry E (RefCase case.1) "created") ;;
           call (EvTrackActivity
                   ("new case " +:+ name case.2 +:+ " created from alert") caseid true)
             (track_activity E
                ("new case " +:+ name case.2 +:+ " created from alert") caseid true) ;;
           ret (ok (PCase case.1 case.2))
       end)
      (λ e, log_exception e ;; ret (error (exn_str e))) s = (Val (error msg), s') ∧
    db s' = d2 ∧
    trace s' = trace s ++ EvCommit :: EvCreateCaseFromAlert alert_id o (case_title data) :: tl ∧
    status_of (durable (db s')) alert_id = Some (Some (status_id r0))).
  { unfold try_except. unfold bind at 1. rewrite (status_id_by_name_run _ _ _ Hreg).
    unfold bind at 1. unfold assign_alert_status, modify.
    unfold bind at 1. unfold db_session_commit, modify.
    unfold bind at 1. unfold call. cbn [db ticks trace with_db record_event].
    fold (status_committed alert_id (status_id r0) (db s)). fold d1.
    rewrite Hcreate.
    destruct res as [[c|]|e]; [done| |].
    - eexists _, _, []. unfold ret. split; [reflexivity|]. cbn [db trace].
      rewrite <- app_assoc. split; [done|]. split; [done|]. by rewrite Hframe.
    - eexists _, _, [_]. unfold bind, log_exception, modify, ret, record_event.
      split; [reflexivity|]. cbn [db trace].
      rewrite <- !app_assoc. split; [done|]. split; [done|]. by rewrite Hframe. }
  destruct req; [done| |]; exact Hrun.
Qed.

(** C6 (amended): when [case_comment_add] answers with the created
    comment, the alert exists, the comment's alert reference is the alert's id,
    its author is the requesting user, and both timestamps are set, each from
    its own reading of the clock: the creation date from the first, the update
    date from the next.  They are equal exactly when the two readings are. *)
Theorem case_comment_add_fields
    (alert_id caseid current_user_id : Z) (body : json) (s s' : State)
    (msg : option string) (c : Comment) :
  case_comment_add E alert_id caseid current_user_id body s =
    (Val (response_success msg (PComment c)), s') →
  is_Some (get_alert_by_id alert_id (db s)) ∧
  comment_alert_id c = Some alert_id ∧
  comment_user_id c = Some current_user_id ∧
  comment_date c = Some (now_reading E (ticks s)) ∧
  comment_update_date c = Some (now_reading E (S (ticks s))) ∧
  (comment_date c = comment_update_date c ↔
     now_reading E (ticks s) = now_reading E (S (ticks s))) ∧
  EvSessionAdd c ∈ trace s'.
Proof.
  unfold case_comment_add, try_except_class.
  unfold bind at 1. unfold get at 1.
  destruct (get_alert_by_id alert_id (db s)) as [a|] eqn:Ha;
    [|unfold ret, error; by intros [=]].
  unfold bind at 1. unfold call at 1.
  destruct (comment_schema_load E body) as [c0|e0];
    [|destruct (is_validation_error _); by intros [=]].
  unfold bind at 1. unfold datetime_now at 1.
  unfold bind at 1. unfold datetime_now at 1.
  unfold bind at 1. unfold db_session_add, modify.
  unfold bind at 1. unfold db_session_commit at 1. unfold modify.
  unfold bind at 1. unfold call at 1. cbn [db ticks trace with_db record_event].
  destruct (add_obj_history_entry E _ _ _) as [[[]|e1] d1];
    [|destruct (is_validation_error _); by intros [=]].
  unfold bind at 1. unfold db_session_commit at 1. unfold modify.
  unfold bind at 1. unfold call at 1. cbn [db ticks trace with_db record_event].
  destruct (modules_hook_comment E _ _ _ _ _) as [[[]|e2] d2];
    [|destruct (is_validation_error _); by intros [=]].
  unfold bind at 1. unfold call at 1. cbn [db ticks trace with_db record_event].
  destruct (track_activity E _ _ _ _) as [[[]|e3] d3];
    [|destruct (is_validation_error _); by intros [=]].
  unfold ret. intros [= <- <- <-]. cbn.
  split; [by eexists|]. do 4 (split; [reflexivity|]).
  split; [split; congruence|].
  rewrite !elem_of_app. do 5 left. right. by left.
Qed.

Lemma for_each_app {S A R} (l1 l2 : list A) (body : A → M S (option R)) (s s1 : S) :
  for_each l1 body s = (Val None, s1) →
  for_each (l1 ++ l2) body s = for_each l2 body s1.
Proof.
  revert s. induction l1 as [|x l1 IH]; intros s; simpl.
  - unfold ret. by intros [= <-].
  - unfold bind. destruct (body x s) as [[[r|]|e] s'].
    + unfold ret. by intros [=].
    + apply IH.
    + by intros [=].
Qed.

Lemma batch_merge_step_skip target o piece id s :
  int_of_str E piece = Val id → get_alert_by_id id (db s) = None →
  batch_merge_step E target o piece s = (Val tt, s).
Proof.
  intros Hp Hg. unfold batch_merge_step, bind, lift, get. by rewrite Hp, Hg.
Qed.

Lemma batch_escalate_step_skip acc piece id s :
  int_of_str E piece = Val id → get_alert_by_id id (db s) = None →
  batch_escalate_step E acc piece s = (Val acc, s).
Proof.
  intros Hp Hg. unfold batch_escalate_step, bind, lift, get. by rewrite Hp, Hg.
Qed.

(** C8: when the ids before [m] have been processed and [m] resolves to no
    alert, the batch update returns the error that names [m], in the state
    those ids left: whatever ids follow [m] are not looked at.  The loops of
    batch merge and batch escalate instead pass over such an id and go on
    with the rest. *)
Theorem alerts_batch_update_route_aborts
    (caseid : Z) (data : BatchUpdateData) (pre rest : list Z) (m : Z)
    (s s1 : State) :
  bu_alert_ids data = Some (pre ++ m :: rest) →
  for_each pre (batch_update_step E caseid (default (JObj []) (bu_updates data))) s
    = (Val None, s1) →
  get_alert_by_id m (db s1) = None →
  alerts_batch_update_route E caseid (Object data) s =
    (Val (error ("Alert with ID " +:+ pretty m +:+ " not found")), s1) ∧
  (∀ target o piece pieces s0,
     int_of_str E piece = Val m → get_alert_by_id m (db s0) = None →
     for_ (piece :: pieces) (batch_merge_step E target o) s0 =
     for_ pieces (batch_merge_step E target o) s0) ∧
  (∀ acc piece pieces s0,
     int_of_str E piece = Val m → get_alert_by_id m (db s0) = None →
     batch_escalate_loop E (piece :: pieces) acc s0 =
     batch_escalate_loop E pieces acc s0).
Proof.
  intros Hids Hpre Hm. split; [|split].
  - unfold alerts_batch_update_route. rewrite Hids.
    change (default [] (Some (pre ++ m :: rest))) with (pre ++ m :: rest).
    destruct (pre ++ m :: rest) as [|x l] eqn:Hl; [by destruct pre|].
    rewrite <- Hl. unfold bind at 1.
    rewrite (for_each_app _ _ _ _ _ Hpre). simpl.
    unfold bind at 1. unfold batch_update_step at 1. unfold bind at 1, get at 1.
    rewrite Hm. reflexivity.
  - intros target o piece pieces s0 Hp Hg. simpl. unfold bind at 1.
    by rewrite (batch_merge_step_skip _ _ _ _ _ Hp Hg).
  - intros acc piece pieces s0 Hp Hg. simpl. unfold bind at 1.
    by rewrite (batch_escalate_step_skip _ _ _ _ Hp Hg).
Qed.

Lemma status_committed_resolves id sid d id' :
  is_Some (get_alert_by_id id' (status_committed id sid d)) ↔
  is_Some (get_alert_by_id id' d).
Proof. unfold get_alert_by_id, status_committed. simpl. apply lookup_alter_is_Some. Qed.

Lemma resolved_ext d d' ids :
  (∀ id, is_Some (get_alert_by_id id d') ↔ is_Some (get_alert_by_id id d)) →
  resolved d' ids = resolved d ids.
Proof. intros H. unfold resolved. by apply list_filter_iff. Qed.

Lemma resolved_cons_Some d id ids a :
  get_alert_by_id id d = Some a → resolved d (id :: ids) = id :: resolved d ids.
Proof. intros H. unfold resolved. rewrite filter_cons_True; [done|]. by rewrite H. Qed.

Lemma resolved_cons_None d id ids :
  get_alert_by_id id d = None → resolved d (id :: ids) = resolved d ids.
Proof.
  intros H. unfold resolved. rewrite filter_cons_False; [done|].
  rewrite H. by intros [? ?].
Qed.

Lemma batch_escalate_loop_run r0 pieces :
  ∀ ids acc s,
    map_outcome (int_of_str E) pieces = Val ids →
    registry_row "Merged" (db s) = Some r0 →
    batch_escalate_loop E pieces acc s =
      (Val (acc ++ resolved (db s) ids),
       mkState (batch_committed (status_id r0) (db s) (resolved (db s) ids))
         (ticks s)
         (trace s ++ replicate (length (resolved (db s) ids)) EvCommit)).
Proof.
  induction pieces as [|piece pieces IH]; intros ids acc s Hids Hreg; simpl in *.
  - injection Hids as <-. unfold ret. simpl. rewrite !app_nil_r. by destruct s.
  - destruct (int_of_str E piece) as [id|] eqn:Hp; [|done].
    destruct (map_outcome (int_of_str E) pieces) as [ids'|] eqn:Hrest; [|done].
    injection Hids as <-. unfold bind at 1.
    destruct (get_alert_by_id id (db s)) as [a|] eqn:Hg.
    + unfold batch_escalate_step, bind, lift, get. rewrite Hp, Hg.
      rewrite (status_id_by_name_run _ _ _ Hreg).
      unfold assign_alert_status, db_session_commit, modify, ret.
      cbn [db ticks trace with_db record_event].
      fold (status_committed id (status_id r0) (db s)).
      rewrite (IH ids' _ _ eq_refl) by exact Hreg.
      cbn [db ticks trace].
      rewrite (resolved_ext (db s) (status_committed id (status_id r0) (db s)))
        by apply status_committed_resolves.
      rewrite (resolved_cons_Some _ _ _ _ Hg). simpl. by rewrite <- !app_assoc.
    + rewrite (batch_escalate_step_skip _ _ _ _ Hp Hg).
      rewrite (IH ids' _ _ eq_refl Hreg).
      by rewrite (resolved_cons_None _ _ _ Hg).
Qed.

Lemma status_committed_keeps id sid d id' :
  status_of (session d) id' = Some (Some sid) →
  status_of (session (status_committed id sid d)) id' = Some (Some sid) ∧
  status_of (durable (status_committed id sid d)) id' = Some (Some sid).
Proof.
  unfold status_of, status_committed. simpl. intros H.
  destruct (decide (id = id')) as [->|Hne].
  - rewrite lookup_alter_eq. destruct (alerts (session d) !! id'); by simpl in *.
  - by rewrite lookup_alter_ne.
Qed.

Lemma batch_committed_keeps sid batch :
  ∀ d id,
    status_of (session d) id = Some (Some sid) →
    status_of (durable d) id = Some (Some sid) →
    status_of (session (batch_committed sid d batch)) id = Some (Some sid) ∧
    status_of (durable (batch_committed sid d batch)) id = Some (Some sid).
Proof.
  induction batch as [|i batch IH]; intros d id Hs Hd; simpl; [done|].
  destruct (status_committed_keeps i sid d id Hs). by apply IH.
Qed.

Lemma batch_committed_status sid batch :
  ∀ d id,
    id ∈ batch → is_Some (get_alert_by_id id d) →
    status_of (session (batch_committed sid d batch)) id = Some (Some sid) ∧
    status_of (durable (batch_committed sid d batch)) id = Some (Some sid).
Proof.
  induction batch as [|i batch IH]; intros d id Hin Hres; simpl.
  - by apply elem_of_nil in Hin.
  - apply elem_of_cons in Hin as [->|Hin].
    + destruct Hres as [a Ha].
      destruct (status_of_committed i sid d a Ha). by apply batch_committed_keeps.
    + apply IH; [done|]. by apply status_committed_resolves.
Qed.

Lemma elem_of_resolved d ids id :
  id ∈ resolved d ids ↔ is_Some (get_alert_by_id id d) ∧ id ∈ ids.
Proof. unfold resolved. by rewrite list_elem_of_filter. Qed.

(** C4: batch escalation resolves the ids, passing over those with no
    alert; it sets the status of each resolved alert to the id of the registry
    row named "Merged" and commits it, alert after alert; then it calls
    [create_case_from_alerts] once, with the list of all resolved alerts, and,
    when that returns a case and the next steps return, goes on with the
    steps of single escalation: access, hook, history entry, activity. *)
Theorem alerts_batch_escalate_route_one_case
    (caseid : Z) (data : EscalationData) (ids_str : string) (ids : list Z)
    (s : State) (r0 : AlertStatus) :
  alert_ids data = Some ids_str → ids_str ≠ "" →
  map_outcome (int_of_str E) (split_on "," ids_str) = Val ids →
  registry_row "Merged" (db s) = Some r0 →
  let sid := status_id r0 in
  let batch := resolved (db s) ids in
  let o := import_options data (note data) in
  let d1 := batch_committed sid (db s) batch in
  (∀ id, id ∈ batch ↔ id ∈ ids ∧ is_Some (get_alert_by_id id (db s))) ∧
  (∀ id, id ∈ batch →
     status_of (session d1) id = Some (Some sid) ∧
     status_of (durable d1) id = Some (Some sid)) ∧
  ∀ case d2 d3 case' d4 d5 d6,
    create_case_from_alerts E batch o (case_title data) d1 = (Val (Some case), d2) →
    ac_set_new_case_access E case.1 d2 = (Val tt, d3) →
    modules_hook_case E "on_postload_case_create" case caseid d3 = (Val case', d4) →
    add_obj_history_entry E (RefCase case'.1) "created" d4 = (Val tt, d5) →
    track_activity E ("new case " +:+ name case'.2 +:+ " created from alerts")
      caseid true d5 = (Val tt, d6) →
    alerts_batch_escalate_route E caseid (Object data) s =
      (Val (ok (PCase case'.1 case'.2)),
       mkState d6 (ticks s)
         (trace s ++ replicate (length batch) EvCommit ++
          [EvCreateCaseFromAlerts batch o (case_title data);
           EvSetNewCaseAccess case.1;
           EvModulesHook "on_postload_case_create" caseid;
           EvHistoryEntry (RefCase case'.1) "created";
           EvTrackActivity ("new case " +:+ name case'.2 +:+ " created from alerts")
             caseid true])).
Proof.
  intros Hstr Hne Hids Hreg sid batch o d1. split; [|split].
  - intros id. unfold batch. rewrite elem_of_resolved. tauto.
  - intros id Hin. apply batch_committed_status; [done|].
    by apply elem_of_resolved in Hin as [? _].
  - subst sid batch o d1. intros case d2 d3 case' d4 d5 d6 H1 H2 H3 H4 H5.
    unfold alerts_batch_escalate_route. cbn [json_data]. rewrite Hstr.
    assert (str_truthy (Some ids_str) = true) as ->
      by (simpl; by destruct ids_str).
    cbn [negb]. change (default "" (Some ids_str)) with ids_str.
    unfold try_except. unfold bind at 1.
    rewrite (batch_escalate_loop_run r0 _ ids [] s Hids Hreg). cbn [app].
    run_call H1. run_call H2. run_call H3. run_call H4. run_call H5.
    unfold ret. by rewrite <- !app_assoc.
Qed.

Lemma resolves_status d id :
  is_Some (get_alert_by_id id d) ↔ is_Some (status_of (session d) id).
Proof. unfold get_alert_by_id, status_of. by rewrite fmap_is_Some. Qed.

Lemma batch_merge_step_run target o piece id a r0 s :
  merge_keeps_alerts E →
  int_of_str E piece = Val id →
  get_alert_by_id id (db s) = Some a →
  registry_row "Merged" (db s) = Some r0 →
  ∃ d',
    batch_merge_step E target o piece s =
      (Val tt, mkState d' (ticks s)
                 (trace s ++ [EvCommit; EvMergeAlertInCase id target o])) ∧
    (∀ i, status_of (session d') i =
          status_of (session (status_committed id (status_id r0) (db s))) i) ∧
    (∀ i, merged_in (status_id r0) (status_committed id (status_id r0) (db s)) i →
          merged_in (status_id r0) d' i) ∧
    alert_status (session d') = alert_status (session (db s)).
Proof.
  intros HE Hp Hg Hreg.
  destruct (HE id target o (status_committed id (status_id r0) (db s)))
    as (d' & Hm & Hs & Hd & Hr).
  exists d'. split; [|split; [done|split; [|done]]].
  2:{ intros i [Hi1 Hi2]. split; [by rewrite Hs|].
      destruct (Hd i) as [->| ->]; [done|by rewrite Hs]. }
  unfold batch_merge_step, bind, lift, get. rewrite Hp, Hg.
  rewrite (status_id_by_name_run _ _ _ Hreg).
  unfold assign_alert_status, db_session_commit, modify, call.
  cbn [db ticks trace with_db record_event].
  fold (status_committed id (status_id r0) (db s)). rewrite Hm.
  by rewrite <- app_assoc.
Qed.

Lemma batch_merge_loop_run target o r0 pieces :
  merge_keeps_alerts E →
  ∀ ids s,
    map_outcome (int_of_str E) pieces = Val ids →
    registry_row "Merged" (db s) = Some r0 →
    ∃ s1,
      for_ pieces (batch_merge_step E target o) s = (Val tt, s1) ∧
      ticks s1 = ticks s ∧
      trace s1 = trace s ++
        flat_map (λ id, [EvCommit; EvMergeAlertInCase id target o]) (resolved (db s) ids) ∧
      (∀ id, is_Some (get_alert_by_id id (db s1)) ↔ is_Some (get_alert_by_id id (db s))) ∧
      (∀ id, id ∈ resolved (db s) ids → merged_in (status_id r0) (db s1) id) ∧
      (∀ id, merged_in (status_id r0) (db s) id → merged_in (status_id r0) (db s1) id) ∧
      registry_row "Merged" (db s1) = Some r0.
Proof.
  intros HE. induction pieces as [|piece pieces IH]; intros ids s Hids Hreg; simpl in *.
  - injection Hids as <-. exists s. unfold ret. simpl. rewrite app_nil_r.
    split; [done|]. split; [done|]. split; [done|]. split; [done|].
    split; [|done]. intros i H. by apply elem_of_nil in H.
  - destruct (int_of_str E piece) as [id|] eqn:Hp; [|done].
    destruct (map_outcome (int_of_str E) pieces) as [ids'|] eqn:Hrest; [|done].
    injection Hids as <-. unfold bind at 1.
    destruct (get_alert_by_id id (db s)) as [a|] eqn:Hg.
    + destruct (batch_merge_step_run target o piece id a r0 s HE Hp Hg Hreg)
        as (d' & Hstep & Hs & Hd & Hr).
      rewrite Hstep.
      set (s' := mkState d' _ _).
      assert (Hdom : ∀ i, is_Some (get_alert_by_id i (db s')) ↔
                          is_Some (get_alert_by_id i (db s))).
      { intros i. rewrite !resolves_status. simpl. rewrite Hs.
        rewrite <- !resolves_status. apply status_committed_resolves. }
      assert (Hreg' : registry_row "Merged" (db s') = Some r0).
      { unfold registry_row in *. simpl. by rewrite Hr. }
      assert (Hkeep : ∀ i, merged_in (status_id r0) (db s) i →
                           merged_in (status_id r0) (db s') i).
      { intros i [Hi _]. apply Hd. by apply status_committed_keeps. }
      assert (Hnew : merged_in (status_id r0) (db s') id).
      { apply Hd. by eapply status_of_committed. }
      destruct (IH ids' s' eq_refl Hreg') as (s1 & Hrun & Ht & Htr & Hd1 & Hin & Hk & Hr1).
      exists s1. rewrite (resolved_cons_Some _ _ _ _ Hg).
      rewrite (resolved_ext (db s) (db s') ids' Hdom) in Htr, Hin.
      split; [done|]. split; [done|]. split.
      { rewrite Htr. simpl. by rewrite <- app_assoc. }
      split; [intros i; by rewrite Hd1|]. split; [|split; [|done]].
      * intros i [->|Hi]%elem_of_cons; [by apply Hk|by apply Hin].
      * intros i Hi. by apply Hk, Hkeep.
    + rewrite (batch_merge_step_skip _ _ _ _ _ Hp Hg).
      rewrite (resolved_cons_None _ _ _ Hg). by apply IH.
Qed.

Lemma str_truthy_Some n : n ≠ "" → str_truthy (Some n) = true.
Proof. intros H. simpl. by destruct n. Qed.

Lemma escalation_note_header d n :
  d ≠ "" →
  escalation_note d n =
    nl +:+ nl +:+ "### Escalation note" +:+ nl +:+ nl +:+ n +:+ nl +:+ nl.
Proof. intros H. unfold escalation_note. by destruct d. Qed.

(** C3 (amended): batch merge over a comma-separated id list whose pieces
    convert, with a well-behaved [merge_alert_in_case].  The loop runs to its
    end; an id that resolves to no alert leaves no trace and stops nothing;
    each resolved alert, in order, has its status set to "Merged" and
    committed on its own, then is merged into the target case by a call that
    carries no note.  After the loop a supplied note is appended once to the
    description the case then has: under the header "### Escalation note"
    when that description is not empty, and with no header when it is the
    empty string. *)
Theorem alerts_batch_merge_route_note
    (caseid target : Z) (data : EscalationData) (ids_str : string) (ids : list Z)
    (s : State) (r0 : AlertStatus) (c0 : Case) :
  merge_keeps_alerts E →
  target_case_id data = Some target →
  alert_ids data = Some ids_str → ids_str ≠ "" →
  get_case target (db s) = Some c0 →
  map_outcome (int_of_str E) (split_on "," ids_str) = Val ids →
  registry_row "Merged" (db s) = Some r0 →
  let sid := status_id r0 in
  let batch := resolved (db s) ids in
  let o := import_options data None in
  ∃ s1,
    for_ (split_on "," ids_str) (batch_merge_step E target o) s = (Val tt, s1) ∧
    trace s1 = trace s ++
      flat_map (λ id, [EvCommit; EvMergeAlertInCase id target o]) batch ∧
    (∀ id, id ∈ batch ↔ id ∈ ids ∧ is_Some (get_alert_by_id id (db s))) ∧
    (∀ id, id ∈ batch → merged_in sid (db s1) id) ∧
    (∀ c1 d n,
       get_case target (db s1) = Some c1 → description c1 = Some d →
       note data = Some n → n ≠ "" →
       alerts_batch_merge_route E caseid (Object data) s =
         (Val (ok (PCase target
                     (set_description (Some (d +:+ escalation_note d n)) c1))),
          mkState
            (commit (with_session (with_cases
                       (alter (set_description (Some (d +:+ escalation_note d n)))
                          target)) (db s1)))
            (ticks s1) (trace s1 ++ [EvCommit]))) ∧
    (∀ c1,
       get_case target (db s1) = Some c1 → str_truthy (note data) = false →
       alerts_batch_merge_route E caseid (Object data) s =
         (Val (ok (PCase target c1)), s1)) ∧
    (∀ d n, d ≠ "" →
       escalation_note d n =
         nl +:+ nl +:+ "### Escalation note" +:+ nl +:+ nl +:+ n +:+ nl +:+ nl) ∧
    (∀ n, escalation_note "" n = nl +:+ nl +:+ n +:+ nl +:+ nl).
Proof.
  intros HE Ht Hstr Hne Hc0 Hids Hreg sid batch o. subst sid batch o.
  destruct (batch_merge_loop_run target (import_options data None) r0 _ HE ids s Hids Hreg)
    as (s1 & Hrun & Htk & Htr & Hdom & Hin & _ & _).
  exists s1. split; [done|]. split; [done|].
  split; [intros id; rewrite elem_of_resolved; tauto|]. split; [done|].
  assert (Hroute : alerts_batch_merge_route E caseid (Object data) s =
    try_except
      ((if str_truthy (note data)
        then append_note target (default "" (note data)) ;; db_session_commit
        else ret tt) ;;
       p <- dump_case target ;; ret (ok p))
      (λ e, log_exception e ;; ret (error (exn_str e))) s1).
  { unfold alerts_batch_merge_route. cbn [json_data]. rewrite Ht, Hstr.
    rewrite (str_truthy_Some _ Hne). cbn [negb].
    change (default "" (Some ids_str)) with ids_str.
    unfold bind at 1. unfold get at 1. rewrite Hc0.
    unfold try_except. unfold bind at 1. by rewrite Hrun. }
  split; [|split; [|split]].
  - intros c1 d n Hc1 Hd Hn Hnn. rewrite Hroute, Hn, (str_truthy_Some _ Hnn).
    change (default "" (Some n)) with n.
    unfold try_except, bind, append_note, bind, get. rewrite Hc1, Hd.
    unfold modify, db_session_commit, modify, dump_case, bind, get.
    cbn [db ticks trace with_db record_event].
    unfold get_case. cbn [session commit with_session with_cases cases].
    rewrite lookup_alter_eq. unfold get_case in Hc1. rewrite Hc1. reflexivity.
  - intros c1 Hc1 Hn. rewrite Hroute, Hn.
    unfold try_except, bind, ret, dump_case, bind, get. by rewrite Hc1.
  - apply escalation_note_header.
  - reflexivity.
Qed.
End route_props.

Local Open Scope Z_scope.

Lemma demo_env_merge_keeps_alerts : merge_keeps_alerts demo_env.
Proof.
  intros a c o d. eexists. split; [reflexivity|]. simpl.
  split; [done|]. split; [|done]. intros id. by right.
Qed.

(** An instance: alert 5 escalated while the case creation raises. *)
Lemma alerts_escalate_route_keeps_status_witness :
  get_alert_by_id 5 (db demo_state) = Some (mkAlert (Some 1) [("alert_title", JStr "Beacon")]) ∧
  registry_row "Escalated" (db demo_state) = Some (mkAlertStatus 4 "Escalated") ∧
  ∃ msg s',
    alerts_escalate_route failing_env 5 1 (Object no_escalation_data) demo_state
      = (Val (error msg), s') ∧
    status_of (durable (db s')) 5 = Some (Some 4).
Proof.
  split; [reflexivity|]. split; [reflexivity|].
  destruct (alerts_escalate_route_keeps_status failing_env 5 1
              (Object no_escalation_data) demo_state
              (mkAlert (Some 1) [("alert_title", JStr "Beacon")])
              (mkAlertStatus 4 "Escalated")
              (Raise (Exn OtherException "could not create the case"))
              (status_committed 5 4 (db demo_state))
              eq_refl ltac:(discriminate) eq_refl eq_refl I eq_refl)
    as (_ & msg & s' & tl & Hrun & _ & _ & Hst).
  exists msg, s'. exact (conj Hrun Hst).
Defined.

(** Instances: alert 7 does not exist; alert 5 does and case 11 does not. *)
Lemma alerts_merge_route_not_found_witness :
  alerts_merge_route demo_env 7 1
    (Object (mkEscalationData (Some 10) None None None None None None None)) demo_state
    = (Val (error "Alert not found"), demo_state) ∧
  alerts_merge_route demo_env 5 1
    (Object (mkEscalationData (Some 11) None None None None None None None)) demo_state
    = (Val (error "Target case not found"), demo_state).
Proof.
  split.
  - apply (alerts_merge_route_not_found demo_env 7 1 10
             (mkEscalationData (Some 10) None None None None None None None)
             demo_state eq_refl).
    reflexivity.
  - apply (alerts_merge_route_not_found demo_env 5 1 11
             (mkEscalationData (Some 11) None None None None None None None)
             demo_state eq_refl).
    + by eexists.
    + reflexivity.
Defined.

(** An instance: user 42 comments alert 5. *)
Lemma case_comment_add_fields_witness :
  ∃ c s',
    case_comment_add demo_env 5 1 42 (JObj [("comment_text", JStr "hi")]) demo_state
      = (Val (response_success (Some "Alert commented") (PComment c)), s') ∧
    comment_alert_id c = Some 5 ∧ comment_user_id c = Some 42.
Proof.
  eexists _, _. split; [reflexivity|].
  destruct (case_comment_add_fields demo_env 5 1 42
              (JObj [("comment_text", JStr "hi")]) demo_state _ _ _ eq_refl)
    as (_ & H1 & H2 & _).
  exact (conj H1 H2).
Defined.

(** C6 as stated fails: the two timestamps are two readings of the clock;
    with readings 1000 and 1001 the comment is created with a creation date
    and an update date that differ. *)
Lemma case_comment_add_two_readings :
  (case_comment_add demo_env 5 1 42 (JObj [("comment_text", JStr "hi")]) demo_state).1
    = Val (response_success (Some "Alert commented")
             (PComment (mkComment (Some "hi") (Some 5) (Some 42) (Some 1000) (Some 1001)))).
Proof. reflexivity. Qed.

(** An instance: ids 5, 7, 9 where 7 resolves to no alert; 9 is not reached. *)
Lemma alerts_batch_update_route_aborts_witness :
  alerts_batch_update_route demo_env 1
    (Object (mkBatchUpdateData (Some [5; 7; 9]) (Some (JObj [("alert_title", JStr "X")]))))
    demo_state
  = (Val (error "Alert with ID 7 not found"),
     (for_each [5] (batch_update_step demo_env 1 (JObj [("alert_title", JStr "X")]))
        demo_state).2).
Proof.
  apply (alerts_batch_update_route_aborts demo_env 1
           (mkBatchUpdateData (Some [5; 7; 9]) (Some (JObj [("alert_title", JStr "X")])))
           [5] [9] 7 demo_state).
  - reflexivity.
  - vm_compute. reflexivity.
  - vm_compute. reflexivity.
Defined.

(** An instance: ids "5,7,9" where 7 resolves to no alert: one case from 5 and 9. *)
Lemma alerts_batch_escalate_route_one_case_witness :
  map_outcome (int_of_str demo_env) (split_on "," "5,7,9") = Val [5; 7; 9] ∧
  registry_row "Merged" (db demo_state) = Some (mkAlertStatus 5 "Merged") ∧
  resolved (db demo_state) [5; 7; 9] = [5; 9] ∧
  status_of (durable (batch_committed 5 (db demo_state) [5; 9])) 9 = Some (Some 5) ∧
  trace (alerts_batch_escalate_route demo_env 1 (demo_batch (Some "check hosts"))
           demo_state).2
  = [EvCommit; EvCommit;
     EvCreateCaseFromAlerts [5; 9]
       (mkImportOptions None None (Some "check hosts") None None) (Some "Campaign");
     EvSetNewCaseAccess 100;
     EvModulesHook "on_postload_case_create" 1;
     EvHistoryEntry (RefCase 100) "created";
     EvTrackActivity "new case Campaign created from alerts" 1 true].
Proof.
  split; [reflexivity|]. split; [reflexivity|]. split; [reflexivity|].
  destruct (alerts_batch_escalate_route_one_case demo_env 1
              (mkEscalationData (Some 10) (Some "5,7,9") None None
                 (Some "check hosts") None None (Some "Campaign"))
              "5,7,9" [5; 7; 9] demo_state (mkAlertStatus 5 "Merged")
              eq_refl ltac:(discriminate) eq_refl eq_refl) as (_ & Hst & H).
  split; [apply (Hst 9); by repeat constructor|].
  unfold demo_batch.
  rewrite (H _ _ _ _ _ _ _ eq_refl eq_refl eq_refl eq_refl eq_refl).
  reflexivity.
Defined.

(** An instance: ids "5,7,9" merged into case 10; 7 resolves to no alert. *)
Lemma alerts_batch_merge_route_note_witness :
  merge_keeps_alerts demo_env ∧
  map_outcome (int_of_str demo_env) (split_on "," "5,7,9") = Val [5; 7; 9] ∧
  ∃ s1,
    for_ (split_on "," "5,7,9")
      (batch_merge_step demo_env 10 (mkImportOptions None None None None None))
      demo_state = (Val tt, s1) ∧
    trace s1 =
      [EvCommit; EvMergeAlertInCase 5 10 (mkImportOptions None None None None None);
       EvCommit; EvMergeAlertInCase 9 10 (mkImportOptions None None None None None)] ∧
    merged_in 5 (db s1) 5 ∧ merged_in 5 (db s1) 9.
Proof.
  split; [exact demo_env_merge_keeps_alerts|]. split; [reflexivity|].
  destruct (alerts_batch_merge_route_note demo_env 1 10
              (mkEscalationData (Some 10) (Some "5,7,9") None None
                 (Some "check hosts") None None (Some "Campaign"))
              "5,7,9" [5; 7; 9] demo_state (mkAlertStatus 5 "Merged")
              (mkCase "Intrusion" (Some "Initial report"))
              demo_env_merge_keeps_alerts eq_refl eq_refl ltac:(discriminate)
              eq_refl eq_refl eq_refl)
    as (s1 & Hrun & Htr & Hb & Hin & _).
  exists s1. split; [exact Hrun|]. split; [exact Htr|].
  split; apply Hin; apply Hb; (split; [by repeat constructor|by eexists]).
Defined.

(** C3 as stated fails: with a target case whose description is empty (and
    a batch whose only id resolves to no alert) the note is appended with no
    header: the description becomes the note between blank lines. *)
Lemma alerts_batch_merge_route_no_header :
  (alerts_batch_merge_route demo_env 1
     (Object (mkEscalationData (Some 10) (Some "7") None None (Some "check hosts")
                None None None))
     blank_state).1
  = Val (ok (PCase 10 (mkCase "Intrusion"
                         (Some (nl +:+ nl +:+ "check hosts" +:+ nl +:+ nl))))).
Proof. reflexivity. Qed.

End AlertsRoutesProps.

(** ** Further properties of [case_tasks_db.py] *)

Module CaseTasksDbMoreProps.
Import Py CaseTasksDb CaseTasksDbMore CaseTasksDbProps.
Local Open Scope py_scope.

Section more_tasks.
Context (E : Collaborators).

Lemma filter_none {A} (P : A → Prop) `{∀ x, Decision (P x)} (l : list A) :
  (∀ x, x ∈ l → ¬ P x) → filter P l = [].
Proof.
  induction l as [|a l IH]; intros Hl; [done|].
  rewrite filter_cons_False by (apply Hl; left).
  apply IH. intros x Hx. apply Hl. by right.
Qed.

(** X1: a reconciliation whose ids convert leaves, as the assignees of the
    task, exactly the desired ids that were assigned already or are the id of
    a user; when every desired id is a user's, the assignees are the desired
    set.  What the session holds is committed. *)
Theorem update_task_assignees_final_set
    (t : CaseTasks) (l : list assignee_ref) (ids : list Z) (s : State) :
  map_outcome (py_int E) l = Val ids →
  let s1 := (update_task_assignees E (Some t) l s).2 in
  (∀ uid, uid ∈ set_cur_assignees t (db s1) ↔
     uid ∈ set_assignees ids ∧
     (uid ∈ set_cur_assignees t (db s) ∨ is_Some (user_by_id uid (db s)))) ∧
  ((∀ uid, uid ∈ ids → is_Some (user_by_id uid (db s))) →
     set_cur_assignees t (db s1) = set_assignees ids) ∧
  durable (db s1) = session (db s1).
Proof.
  intros Hids s1. subst s1. rewrite (update_task_assignees_run E t l ids s Hids).
  cbn [snd db]. split; [|split].
  - intros uid. apply elem_of_reconciled.
  - intros Hall. apply set_eq. intros uid. rewrite elem_of_reconciled.
    split; [tauto|]. intros Hin. split; [done|]. right. apply Hall.
    by apply elem_of_list_to_set in Hin.
  - apply commit_durable.
Qed.

(** X2: a reconciliation for a task leaves the join rows of every other
    task, and the users, as they were. *)
Theorem update_task_assignees_other_tasks
    (t : CaseTasks) (l : list assignee_ref) (ids : list Z) (s : State) :
  map_outcome (py_int E) l = Val ids →
  let s1 := (update_task_assignees E (Some t) l s).2 in
  filter (λ ta, task_id ta ≠ ct_id t) (task_assignee (session (db s1))) =
    filter (λ ta, task_id ta ≠ ct_id t) (task_assignee (session (db s))) ∧
  users (session (db s1)) = users (session (db s)).
Proof.
  intros Hids s1. subst s1. rewrite (update_task_assignees_run E t l ids s Hids).
  cbn [snd db]. rewrite commit_task_assignee, commit_users. split; [|done].
  cbn [session with_session with_task_assignee task_assignee].
  unfold reconciled_rows. rewrite list_filter_filter.
  rewrite (list_filter_iff _ (λ ta, task_id ta ≠ ct_id t)) by (intros ta; tauto).
  rewrite filter_app.
  assert (filter (λ ta, task_id ta ≠ ct_id t)
            (join_rows t (db s) (elements (assignees_to_add t ids (db s)))) = []) as ->.
  { apply filter_none. intros ta (uid & _ & _ & ->)%elem_of_join_rows. simpl. tauto. }
  by rewrite app_nil_r.
Qed.

Lemma map_outcome_app_raise {A B} (f : A → outcome B) pre a rest bs e :
  map_outcome f pre = Val bs → f a = Raise e →
  map_outcome f (pre ++ a :: rest) = Raise e.
Proof.
  revert bs. induction pre as [|x pre IH]; intros bs Hpre Ha; simpl in *.
  - by rewrite Ha.
  - destruct (f x); [|done]. destruct (map_outcome f pre) eqn:Hq; [|done].
    by rewrite (IH _ eq_refl Ha).
Qed.

Lemma update_task_assignees_raise t l e s :
  map_outcome (py_int E) l = Raise e →
  update_task_assignees E (Some t) l s = (Raise e, s).
Proof.
  intros Hl. unfold update_task_assignees, bind, get.
  by rewrite map_raising_outcome, Hl.
Qed.

(** X3: every desired id is converted before anything is changed: when an
    element of the list does not convert, the reconciliation raises what the
    conversion raised and leaves the state as it found it (no row added or
    deleted, nothing committed), whatever ids come before or after. *)
Theorem update_task_assignees_bad_id
    (t : CaseTasks) (pre rest : list assignee_ref) (a : assignee_ref)
    (ids : list Z) (e : exn) (s : State) :
  map_outcome (py_int E) pre = Val ids →
  py_int E a = Raise e →
  update_task_assignees E (Some t) (pre ++ a :: rest) s = (Raise e, s).
Proof.
  intros Hpre Ha. apply update_task_assignees_raise.
  by apply (map_outcome_app_raise _ _ _ _ ids).
Qed.

(** X4: a task is looked up by its id and its case together: when no task
    row with the id [task_id] belongs to the case [caseid], the status update
    returns [False] and leaves the state as it found it, even when a task
    with that id exists in another case. *)
Theorem update_task_status_other_case
    (task_status task_id : option Z) (caseid : Z) (s : State) :
  (∀ r, r ∈ case_tasks (session (db s)) → ct_id r = task_id →
        task_case_id r ≠ Some caseid) →
  update_task_status E task_status task_id caseid s = (Val false, s).
Proof.
  intros Hno. unfold update_task_status, bind, get.
  assert (get_task task_id caseid (db s) = None) as ->; [|done].
  apply list_find_None, Forall_forall. intros r Hr [Hid Hc]. by apply (Hno r).
Qed.

(** X5: the status update never raises.  It returns [True] exactly when
    the task is found and [update_tasks_state] returns; it then has called
    [update_tasks_state] and committed, once each and in that order.  When it
    returns [False] it has committed nothing. *)
Theorem update_task_status_result
    (task_status task_id : option Z) (caseid : Z) (s : State) :
  ∃ b s',
    update_task_status E task_status task_id caseid s = (Val b, s') ∧
    (b = true ↔
       ∃ h t, get_task task_id caseid (db s) = Some (h, t) ∧
              (update_tasks_state E caseid
                 (with_session (with_case_tasks (alter (set_task_status_id task_status) h))
                    (db s))).1 = Val tt) ∧
    (b = true →
       ops s' = ops s ++ [OpUpdateTasksState caseid; OpCommit] ∧
       durable (db s') = session (db s')) ∧
    (b = false →
       ops s' = ops s ∨ ops s' = ops s ++ [OpUpdateTasksState caseid]).
Proof.
  unfold update_task_status, bind at 1, get.
  destruct (get_task task_id caseid (db s)) as [[h t]|] eqn:Hg.
  - unfold try_except, bind, modify, call_update_tasks_state. cbn [db ticks ops with_db].
    destruct (update_tasks_state E caseid _) as [[[]|e] d'] eqn:Hu.
    + eexists true, _. split; [reflexivity|]. split.
      * split; [|done]. intros _. exists h, t. by rewrite Hu.
      * split; [|done]. intros _. unfold db_session_commit, modify.
        cbn [db ops with_db record_op]. rewrite <- app_assoc. split; [done|].
        apply commit_durable.
    + eexists false, _. split; [reflexivity|]. split.
      * split; [done|]. intros (h' & t' & [= <- <-] & Hv). by rewrite Hu in Hv.
      * split; [done|]. intros _. by right.
  - exists false, s. split; [reflexivity|]. split.
    + split; [done|]. by intros (? & ? & [=] & _).
    + split; [done|]. intros _. by left.
Qed.

Lemma assign_ids_status seq rows :
  task_status_id <$> (assign_ids seq rows).2 = task_status_id <$> rows.
Proof.
  revert seq. induction rows as [|r rows IH]; intros seq; simpl; [done|].
  destruct (ct_id r).
  - specialize (IH seq). destruct (assign_ids seq rows); cbn [snd] in *.
    rewrite !fmap_cons. by rewrite IH.
  - specialize (IH (seq + 1)%Z). destruct (assign_ids (seq + 1) rows); cbn [snd] in *.
    rewrite !fmap_cons. by rewrite IH.
Qed.

Lemma commit_status d :
  task_status_id <$> case_tasks (session (commit d)) =
  task_status_id <$> case_tasks (session d).
Proof.
  unfold commit. pose proof (assign_ids_status (task_seq d) (case_tasks (session d))) as H.
  by destruct (assign_ids _ _).
Qed.

Lemma alter_status_column v (h : nat) (rows : list CaseTasks) :
  task_status_id <$> alter (set_task_status_id v) h rows =
  <[h := v]> (task_status_id <$> rows).
Proof.
  revert h. induction rows as [|r rows IH]; intros [|h]; simpl; try done.
  f_equal. apply IH.
Qed.

(** X6: with an [update_tasks_state] that returns and leaves the status
    column alone, the status update of a task that is found returns [True]
    and writes the new status in the row of that task and in no other; the
    change is committed. *)
Theorem update_task_status_writes_status
    (task_status task_id : option Z) (caseid : Z) (s : State)
    (h : nat) (t : CaseTasks) :
  keeps_task_status E →
  get_task task_id caseid (db s) = Some (h, t) →
  ∃ s',
    update_task_status E task_status task_id caseid s = (Val true, s') ∧
    task_status_id <$> case_tasks (session (db s')) =
      <[h := task_status]> (task_status_id <$> case_tasks (session (db s))) ∧
    case_tasks (session (db s)) !! h = Some t ∧
    durable (db s') = session (db s').
Proof.
  intros HE Hg. unfold update_task_status, bind at 1, get. rewrite Hg.
  unfold try_except, bind, modify, call_update_tasks_state. cbn [db ticks ops with_db].
  destruct (HE caseid (with_session (with_case_tasks
              (alter (set_task_status_id task_status) h)) (db s))) as (d' & -> & Hst).
  eexists. split; [reflexivity|]. unfold db_session_commit, modify.
  cbn [db with_db record_op]. rewrite commit_status, Hst, commit_durable.
  cbn [session with_session with_case_tasks case_tasks].
  split; [apply alter_status_column|]. split; [|done].
  by apply list_find_Some in Hg as (? & _).
Qed.

Lemma foldl_add_member (k : option Z) (l : list (option Z * User)) :
  (∀ x, x ∈ l → x.1 = k) →
  ∀ m0 : gmap (option Z) (list Member),
    default [] (foldl add_member m0 l !! k) =
    default [] (m0 !! k) ++ ((λ x, member_of x.2) <$> l).
Proof.
  induction l as [|x l IH]; intros Hl m0; simpl.
  - by rewrite app_nil_r.
  - rewrite IH by (intros y Hy; apply Hl; by right).
    assert (x.1 = k) as Hx by (apply Hl; left).
    unfold add_member. rewrite Hx.
    destruct (m0 !! k) as [l0|] eqn:Hm; rewrite lookup_insert_eq; simpl.
    + by rewrite <- app_assoc.
    + done.
Qed.

Lemma elem_of_get_assignee_list tid d x :
  x ∈ get_assignee_list tid d ↔
  x.1 = tid ∧ mkTaskAssignee tid (u_id x.2) ∈ task_assignee (session d) ∧
  x.2 ∈ users (session d).
Proof.
  unfold get_assignee_list. rewrite list_elem_of_bind. split.
  - intros (ta & Hx & Hta). apply list_elem_of_bind in Hx as (u & Hx & Hu).
    apply list_elem_of_singleton in Hx as ->. simpl.
    apply list_elem_of_filter in Hta as [Ht Hta].
    apply list_elem_of_filter in Hu as [Hi Hu].
    split; [done|]. split; [|done]. rewrite Hi, <- Ht. by destruct ta.
  - destruct x as [k u]. simpl. intros (-> & Hta & Hu).
    exists (mkTaskAssignee tid (u_id u)). split.
    + apply list_elem_of_bind. exists u. split; [by left|].
      by apply list_elem_of_filter.
    + by apply list_elem_of_filter.
Qed.

Lemma elem_of_users_by_id uid d :
  (∃ u, u ∈ users (session d) ∧ u_id u = uid) ↔ is_Some (user_by_id uid d).
Proof.
  unfold user_by_id, first. split.
  - intros (u & Hu & Hi).
    destruct (filter (λ u, u_id u = uid) (users (session d))) as [|u' l'] eqn:Hf; [|by eexists].
    assert (u ∈ filter (λ u, u_id u = uid) (users (session d))) as Hin
      by (by apply list_elem_of_filter).
    rewrite Hf in Hin. by apply elem_of_nil in Hin.
  - intros [u Hu]. apply head_Some_elem_of in Hu.
    apply list_elem_of_filter in Hu as [? ?]. eauto.
Qed.

Lemma get_task_with_assignees_Some tid case_id d h task :
  get_task tid case_id d = Some (h, task) →
  get_task_with_assignees tid case_id d =
    Some (task, (λ x, member_of x.2) <$> get_assignee_list tid d).
Proof.
  intros Hg. unfold get_task_with_assignees. rewrite Hg.
  apply list_find_Some in Hg as (_ & [Hid _] & _). rewrite Hid.
  rewrite (foldl_add_member tid)
    by (intros x Hx; by apply elem_of_get_assignee_list in Hx as [? _]).
  by rewrite lookup_empty.
Qed.

Lemma elem_of_members tid d uid :
  uid ∈ m_id <$> ((λ x, member_of x.2) <$> get_assignee_list tid d) ↔
  mkTaskAssignee tid uid ∈ task_assignee (session d) ∧ is_Some (user_by_id uid d).
Proof.
  rewrite <- list_fmap_compose, list_elem_of_fmap.
  rewrite <- elem_of_users_by_id. split.
  - intros (x & -> & Hx). apply elem_of_get_assignee_list in Hx as (_ & Hta & Hu).
    simpl. eauto.
  - intros (Hta & u & Hu & <-). exists (tid, u). split; [done|].
    by apply elem_of_get_assignee_list.
Qed.

(** X7: the listing of a task's assignees.  There is a result exactly when
    a task with this id belongs to the case.  All join rows the query returns
    carry the one task id, so the grouping by task id is one group: the
    attribute [task_assignees] is the list of the joined users, one entry for
    each pair of a join row of the task and a user with the row's user id, in
    the order of the query; a join row whose user does not exist gives no
    entry. *)
Theorem get_task_with_assignees_members (task_id : option Z) (case_id : Z) (d : DB) :
  (get_task_with_assignees task_id case_id d = None ↔ get_task task_id case_id d = None) ∧
  (∀ h task, get_task task_id case_id d = Some (h, task) →
     get_task_with_assignees task_id case_id d =
       Some (task, (λ x, member_of x.2) <$> get_assignee_list task_id d)) ∧
  (∀ task ms uid, get_task_with_assignees task_id case_id d = Some (task, ms) →
     (uid ∈ m_id <$> ms ↔
      mkTaskAssignee task_id uid ∈ task_assignee (session d) ∧
      is_Some (user_by_id uid d))).
Proof.
  split; [|split; [apply get_task_with_assignees_Some|]].
  - destruct (get_task task_id case_id d) as [[h task]|] eqn:Hg.
    + by rewrite (get_task_with_assignees_Some _ _ _ h task Hg).
    + unfold get_task_with_assignees. by rewrite Hg.
  - intros task ms uid Hr.
    destruct (get_task task_id case_id d) as [[h task']|] eqn:Hg.
    2:{ unfold get_task_with_assignees in Hr. by rewrite Hg in Hr. }
    rewrite (get_task_with_assignees_Some _ _ _ h task' Hg) in Hr.
    injection Hr as <- <-. apply elem_of_members.
Qed.

Lemma assign_ids_keeps seq rows r :
  r ∈ rows → is_Some (ct_id r) → r ∈ (assign_ids seq rows).2.
Proof.
  revert seq. induction rows as [|x rows IH]; intros seq Hin Hid.
  - by apply elem_of_nil in Hin.
  - simpl. apply elem_of_cons in Hin as [<-|Hin].
    + destruct Hid as [i Hi]. rewrite Hi. destruct (assign_ids seq rows). left.
    + destruct (ct_id x).
      * specialize (IH seq Hin Hid). destruct (assign_ids seq rows). by right.
      * specialize (IH (seq + 1)%Z Hin Hid). destruct (assign_ids (seq + 1) rows). by right.
Qed.

Lemma get_task_commit i caseid d :
  is_Some (get_task (Some i) caseid d) → is_Some (get_task (Some i) caseid (commit d)).
Proof.
  intros [[h r] Hg]. apply list_find_Some in Hg as (Hh & [Hid Hc] & _).
  apply (list_find_elem_of _ _ r); [|done].
  unfold commit.
  pose proof (assign_ids_keeps (task_seq d) (case_tasks (session d)) r) as Hk.
  destruct (assign_ids _ _) as [seq' rows]. simpl in *.
  apply Hk; [by eapply list_elem_of_lookup_2|by rewrite Hid].
Qed.

(** X8: reconciling, then listing.  After a reconciliation for a flushed
    task of the case, with desired ids that convert, the listing of the
    task's assignees shows exactly the desired ids that are the id of a
    user. *)
Theorem get_task_with_assignees_after_update
    (t : CaseTasks) (l : list assignee_ref) (ids : list Z) (s : State)
    (i caseid : Z) :
  map_outcome (py_int E) l = Val ids →
  ct_id t = Some i →
  is_Some (get_task (Some i) caseid (db s)) →
  ∃ t' ms,
    get_task_with_assignees (Some i) caseid
      (db (update_task_assignees E (Some t) l s).2) = Some (t', ms) ∧
    ∀ uid, uid ∈ m_id <$> ms ↔ uid ∈ ids ∧ is_Some (user_by_id uid (db s)).
Proof.
  intros Hids Hi Hg. rewrite (update_task_assignees_run E t l ids s Hids). cbn [snd db].
  set (d1 := commit _).
  assert (Hg1 : is_Some (get_task (Some i) caseid d1)) by (by apply get_task_commit).
  destruct Hg1 as [[h t'] Hg1]. eexists t', _.
  split; [by apply (get_task_with_assignees_Some _ _ _ h)|].
  intros uid. rewrite elem_of_members. rewrite <- Hi.
  rewrite <- elem_of_set_cur_assignees. unfold d1 at 1. rewrite elem_of_reconciled.
  unfold d1. rewrite user_by_id_commit.
  change (user_by_id uid (with_session _ (db s))) with (user_by_id uid (db s)).
  unfold set_assignees. rewrite elem_of_list_to_set. tauto.
Qed.

Lemma commit_ids d : Forall (λ r, is_Some (ct_id r)) (case_tasks (session (commit d))).
Proof.
  unfold commit. pose proof (assign_ids_Some (task_seq d) (case_tasks (session d))) as H.
  by destruct (assign_ids _ _).
Qed.

Lemma update_task_status_committed st tid caseid s r s' :
  tasks_state_returns E →
  (∃ d0, db s = commit d0) →
  update_task_status E st tid caseid s = (r, s') →
  ∃ d0, db s' = commit d0.
Proof.
  intros HE Hs. unfold update_task_status, bind at 1, get.
  destruct (get_task tid caseid (db s)) as [[h t]|]; [|by intros [= <- <-]].
  unfold try_except, bind, modify, call_update_tasks_state. cbn [db ticks ops with_db].
  pose proof (HE caseid (with_session (with_case_tasks
                (alter (set_task_status_id st) h)) (db s))) as Hu.
  destruct (update_tasks_state E caseid _) as [r1 d']. simpl in Hu. subst r1.
  unfold db_session_commit, modify, ret. intros [= <- <-]. simpl. eauto.
Qed.

(** X9: a task is added and committed before its assignees are looked at.
    With an [update_tasks_state] that returns and leaves the task rows alone,
    [add_task] with an assignee id that does not convert raises what the
    conversion raised, and the new task is there all the same: the committed
    table holds a flushed row with the case, the user, the clock reading and
    the custom attributes [add_task] gave it. *)
Theorem add_task_bad_assignee
    (task : CaseTasks) (pre rest : list assignee_ref) (a : assignee_ref)
    (ids : list Z) (e : exn) (user_id caseid : Z) (s : State) :
  keeps_task_rows E → tasks_state_returns E →
  map_outcome (py_int E) pre = Val ids →
  py_int E a = Raise e →
  ∃ s' t',
    add_task E task (pre ++ a :: rest) user_id caseid s = (Raise e, s') ∧
    t' ∈ case_tasks (durable (db s')) ∧
    is_Some (ct_id t') ∧
    task_core t' =
      (Some caseid, Some user_id, Some user_id,
       Some (now_reading E (ticks s)), Some (now_reading E (ticks s)),
       if truthy (custom_attributes task) then custom_attributes task
       else get_default_custom_attributes E "task" (db s)).
Proof.
  intros HE HR Hpre Ha.
  pose proof (map_outcome_app_raise _ _ _ rest _ _ Hpre Ha) as Hl.
  unfold add_task.
  unfold bind at 1. unfold datetime_now at 1.
  unfold bind at 1. unfold get at 1.
  unfold bind at 1. unfold db_session_add_task, bind, get, modify, ret. cbn [db ticks ops].
  set (task' := set_custom_attributes _ _).
  set (s1 := record_op _ _).
  assert (Hh : cores s1 !! length (case_tasks (session (db s))) = Some (task_core task')).
  { unfold cores, s1. destruct s as [[[ct ta us] du sq] tk os]. simpl.
    rewrite fmap_app. rewrite lookup_app_r by (by rewrite length_fmap).
    by rewrite length_fmap, Nat.sub_diag. }
  set (h := length _) in *.
  destruct (call_update_tasks_state E caseid s1) as [r2 s2] eqn:H2.
  assert (r2 = Val tt) as ->.
  { unfold call_update_tasks_state in H2. pose proof (HR caseid (db s1)) as Hr.
    destruct (update_tasks_state E caseid (db s1)); simpl in Hr.
    injection H2 as <- _. done. }
  apply (call_update_tasks_state_cores _ _ _ _ _ HE) in H2.
  destruct (db_session_commit s2) as [r3 s3] eqn:H3.
  assert (Hc3 : ∃ d0, db s3 = commit d0).
  { unfold db_session_commit, modify in H3. injection H3 as _ <-. simpl. eauto. }
  apply db_session_commit_cores in H3 as [-> H3].
  assert (Hread : ∀ s0, cores s0 !! h = Some (task_core task') →
            ∃ t0, read_task h s0 = (Val t0, s0) ∧
                  case_tasks (session (db s0)) !! h = Some t0 ∧
                  task_core t0 = task_core task').
  { intros s0 Hs0. unfold cores in Hs0. rewrite list_lookup_fmap in Hs0.
    unfold read_task, bind, get.
    destruct (case_tasks (session (db s0)) !! h) as [t0|]; [|done].
    exists t0. unfold ret. split; [done|]. split; [done|]. simpl in Hs0. congruence. }
  destruct (Hread s3) as (t3 & -> & _ & _); [congruence|].
  destruct (update_task_status E _ _ caseid s3) as [r4 s4] eqn:H4.
  destruct (update_task_status_committed _ _ _ _ _ _ HR Hc3 H4) as [d4 Hd4].
  apply (update_task_status_cores _ _ _ _ _ _ _ HE) in H4 as [[b ->] H4].
  destruct (Hread s4) as (t4 & -> & Hl4 & Hcore4); [congruence|].
  rewrite (update_task_assignees_raise _ _ _ _ Hl).
  exists s4, t4. split; [done|]. rewrite Hd4, commit_durable. rewrite <- Hd4.
  split; [by eapply list_elem_of_lookup_2|]. split; [|by rewrite Hcore4].
  pose proof (commit_ids d4) as Hids. rewrite <- Hd4 in Hids.
  rewrite Forall_forall in Hids. apply Hids. by eapply list_elem_of_lookup_2.
Qed.

End more_tasks.

Local Open Scope Z_scope.

Lemma demo_env_keeps_task_status : keeps_task_status demo_env.
Proof. intros caseid d. eexists. split; [reflexivity|]. apply commit_status. Qed.

Lemma demo_env_tasks_state_returns : tasks_state_returns demo_env.
Proof. by intros caseid d. Qed.

(** An instance: users 5 and 7 exist, and become the assignees. *)
Lemma update_task_assignees_final_set_witness :
  map_outcome (py_int demo_env) [AInt 5; AStr "7"] = Val [5; 7] ∧
  set_cur_assignees demo_task
    (db (update_task_assignees demo_env (Some demo_task) [AInt 5; AStr "7"] demo_state).2)
  = set_assignees [5; 7].
Proof.
  split; [reflexivity|].
  destruct (update_task_assignees_final_set demo_env demo_task
              [AInt 5; AStr "7"] [5; 7] demo_state eq_refl) as (_ & H & _).
  apply H. intros uid Hin.
  repeat (apply elem_of_cons in Hin as [->|Hin]); try (by eexists).
  by apply elem_of_nil in Hin.
Defined.

(** An instance: the row of task 2 stays when task 1 is reconciled. *)
Lemma update_task_assignees_other_tasks_witness :
  map_outcome (py_int demo_env) [AInt 7] = Val [7] ∧
  filter (λ ta, task_id ta ≠ ct_id demo_task)
    (task_assignee (session
       (db (update_task_assignees demo_env (Some demo_task) [AInt 7] busy_state).2)))
  = [mkTaskAssignee (Some 2) 5].
Proof.
  split; [reflexivity|].
  destruct (update_task_assignees_other_tasks demo_env demo_task
              [AInt 7] [7] busy_state eq_refl) as [H _].
  rewrite H. reflexivity.
Defined.

(** An instance: the second of three ids is malformed. *)
Lemma update_task_assignees_bad_id_witness :
  map_outcome (py_int demo_env) [AInt 5] = Val [5] ∧
  py_int demo_env (AStr "x7") = Raise (invalid_literal "x7") ∧
  update_task_assignees demo_env (Some demo_task) ([AInt 5] ++ AStr "x7" :: [AInt 3])
    demo_state = (Raise (invalid_literal "x7"), demo_state).
Proof.
  split; [reflexivity|]. split; [reflexivity|].
  apply (update_task_assignees_bad_id demo_env demo_task [AInt 5] [AInt 3] (AStr "x7") [5]);
    reflexivity.
Defined.

(** An instance: task 1 belongs to case 10, and is asked for in case 11. *)
Lemma update_task_status_other_case_witness :
  (∀ r, r ∈ case_tasks (session (db demo_state)) → ct_id r = Some 1 →
        task_case_id r ≠ Some 11) ∧
  update_task_status demo_env (Some 3) (Some 1) 11 demo_state = (Val false, demo_state).
Proof.
  assert (H : ∀ r, r ∈ case_tasks (session (db demo_state)) → ct_id r = Some 1 →
                   task_case_id r ≠ Some 11).
  { intros r Hr _. apply list_elem_of_singleton in Hr as ->. done. }
  split; [exact H|].
  apply (update_task_status_other_case demo_env (Some 3) (Some 1) 11 demo_state H).
Defined.

(** An instance: task 1 of case 10 gets the status 3. *)
Lemma update_task_status_writes_status_witness :
  keeps_task_status demo_env ∧
  get_task (Some 1) 10 (db demo_state) = Some (0%nat, demo_task) ∧
  ∃ s', update_task_status demo_env (Some 3) (Some 1) 10 demo_state = (Val true, s') ∧
        task_status_id <$> case_tasks (session (db s')) = [Some 3].
Proof.
  split; [exact demo_env_keeps_task_status|]. split; [reflexivity|].
  destruct (update_task_status_writes_status demo_env (Some 3) (Some 1) 10 demo_state
              0%nat demo_task demo_env_keeps_task_status eq_refl)
    as (s' & Hrun & Hst & _).
  exists s'. split; [exact Hrun|]. rewrite Hst. reflexivity.
Defined.

(** An instance: 5 and 7 are users, 99 is not. *)
Lemma get_task_with_assignees_after_update_witness :
  map_outcome (py_int demo_env) [AInt 5; AStr "7"; AInt 99] = Val [5; 7; 99] ∧
  ct_id demo_task = Some 1 ∧
  is_Some (get_task (Some 1) 10 (db demo_state)) ∧
  ∃ t' ms,
    get_task_with_assignees (Some 1) 10
      (db (update_task_assignees demo_env (Some demo_task)
             [AInt 5; AStr "7"; AInt 99] demo_state).2) = Some (t', ms) ∧
    (5 ∈ m_id <$> ms) ∧ (99 ∉ m_id <$> ms).
Proof.
  split; [reflexivity|]. split; [reflexivity|]. split; [by eexists|].
  destruct (get_task_with_assignees_after_update demo_env demo_task
              [AInt 5; AStr "7"; AInt 99] [5; 7; 99] demo_state 1 10
              eq_refl eq_refl (ex_intro _ _ eq_refl))
    as (t' & ms & Hrun & Hms).
  exists t', ms. split; [exact Hrun|]. split.
  - apply Hms. split; [left|by eexists].
  - intros H. apply Hms in H as [_ [u Hu]]. discriminate Hu.
Defined.

(** An instance: a new task for case 10 with a malformed assignee id. *)
Lemma add_task_bad_assignee_witness :
  keeps_task_rows demo_env ∧ tasks_state_returns demo_env ∧
  map_outcome (py_int demo_env) [AInt 5] = Val [5] ∧
  py_int demo_env (AStr "x7") = Raise (invalid_literal "x7") ∧
  ∃ s' t',
    add_task demo_env new_task ([AInt 5] ++ AStr "x7" :: []) 2 10 demo_state
      = (Raise (invalid_literal "x7"), s') ∧
    t' ∈ case_tasks (durable (db s')) ∧
    task_case_id t' = Some 10 ∧ task_open_date t' = Some 1000.
Proof.
  split; [exact demo_env_keeps_task_rows|].
  split; [exact demo_env_tasks_state_returns|].
  split; [reflexivity|]. split; [reflexivity|].
  destruct (add_task_bad_assignee demo_env new_task [AInt 5] [] (AStr "x7") [5]
              (invalid_literal "x7") 2 10 demo_state
              demo_env_keeps_task_rows demo_env_tasks_state_returns eq_refl eq_refl)
    as (s' & t' & Hrun & Hin & Hid & Hcore).
  exists s', t'. split; [exact Hrun|]. split; [exact Hin|].
  unfold task_core in Hcore. injection Hcore as Hc _ _ Ho _ _.
  split; [exact Hc|exact Ho].
Defined.

End CaseTasksDbMoreProps.

(** ** Further properties of [alerts_routes.py] *)

Module AlertsRoutesMoreProps.
Import Py AlertsRoutes AlertsRoutesMore AlertsRoutesProps.
Local Open Scope py_scope.

Section more_routes.
Context (E : Collaborators).

Lemma status_id_by_name_missing nm s :
  registry_row nm (db s) = None →
  status_id_by_name nm s =
    (Raise (Exn AttributeError "'NoneType' object has no attribute 'status_id'"), s).
Proof. unfold status_id_by_name, bind, get, registry_row. by intros ->. Qed.

(** X10: the status registry is read without a check.  When it holds no
    row named "Escalated", escalating an existing alert answers with the
    message of the [AttributeError], logs the exception, and has changed
    nothing: no status assigned, nothing committed, no case created.  Merging
    with no row named "Merged" answers the same way, and logs nothing. *)
Theorem alerts_escalate_route_no_registry_row
    (alert_id caseid target : Z) (data : EscalationData) (s : State) (a : Alert) :
  get_alert_by_id alert_id (db s) = Some a →
  let e := Exn AttributeError "'NoneType' object has no attribute 'status_id'" in
  (registry_row "Escalated" (db s) = None →
     alerts_escalate_route E alert_id caseid (Object data) s =
       (Val (error (exn_str e)),
        mkState (db s) (ticks s) (trace s ++ [EvLogException e]))) ∧
  (registry_row "Merged" (db s) = None →
   target_case_id data = Some target → is_Some (get_case target (db s)) →
     alerts_merge_route E alert_id caseid (Object data) s = (Val (error (exn_str e)), s)).
Proof.
  intros Ha e. split.
  - intros Hreg. unfold alerts_escalate_route. unfold bind at 1, get at 1. rewrite Ha.
    cbn [json_data]. unfold try_except. unfold bind at 1.
    by rewrite (status_id_by_name_missing _ _ Hreg).
  - intros Hreg Ht [c Hc]. unfold alerts_merge_route. cbn [json_data]. rewrite Ht.
    unfold bind at 1, get at 1. rewrite Ha, Hc.
    unfold try_except. unfold bind at 1.
    by rewrite (status_id_by_name_missing _ _ Hreg).
Qed.

(** X11: a single merge sets the alert's status to "Merged" and commits it
    before [merge_alert_in_case] is called, and hands the note of the request
    to that call.  When the call raises, the route answers with the
    exception's message, logs nothing and undoes nothing: the database is the
    one the call left.  When it returns, the route answers with the target
    case as the session then has it. *)
Theorem alerts_merge_route_run
    (alert_id caseid target : Z) (data : EscalationData) (s : State)
    (a : Alert) (c : Case) (r0 : AlertStatus) (res : outcome unit) (d2 : DB) :
  target_case_id data = Some target →
  get_alert_by_id alert_id (db s) = Some a →
  get_case target (db s) = Some c →
  registry_row "Merged" (db s) = Some r0 →
  let o := import_options data (note data) in
  let d1 := status_committed alert_id (status_id r0) (db s) in
  merge_alert_in_case E alert_id target o d1 = (res, d2) →
  let s' := mkState d2 (ticks s) (trace s ++ [EvCommit; EvMergeAlertInCase alert_id target o]) in
  status_of (durable d1) alert_id = Some (Some (status_id r0)) ∧
  opt_note o = note data ∧
  (∀ e, res = Raise e →
     alerts_merge_route E alert_id caseid (Object data) s = (Val (error (exn_str e)), s')) ∧
  (∀ c2, res = Val tt → get_case target d2 = Some c2 →
     alerts_merge_route E alert_id caseid (Object data) s = (Val (ok (PCase target c2)), s')).
Proof.
  intros Ht Ha Hc Hreg o d1 Hm s'.
  split; [by apply (status_of_committed alert_id (status_id r0) (db s) a)|].
  split; [done|].
  assert (Hroute : alerts_merge_route E alert_id caseid (Object data) s =
    match res with
    | Val _ => match get_case target d2 with
               | Some c2 => (Val (ok (PCase target c2)), s')
               | None => (Val (error "Instance has been deleted"), s')
               end
    | Raise e => (Val (error (exn_str e)), s')
    end).
  { unfold alerts_merge_route. cbn [json_data]. rewrite Ht.
    unfold bind at 1, get at 1. rewrite Ha, Hc.
    unfold try_except. unfold bind at 1. rewrite (status_id_by_name_run _ _ _ Hreg).
    unfold bind at 1. unfold assign_alert_status, modify.
    unfold bind at 1. unfold db_session_commit, modify.
    unfold bind at 1. unfold call. cbn [db ticks trace with_db record_event].
    fold (status_committed alert_id (status_id r0) (db s)). fold d1. fold o.
    rewrite Hm. rewrite <- app_assoc. cbn [app]. fold s'.
    destruct res as [[]|e]; [|done].
    unfold bind, dump_case, bind, get. change (db s') with d2.
    by destruct (get_case target d2). }
  split.
  - intros e ->. exact Hroute.
  - intros c2 -> Hc2. by rewrite Hroute, Hc2.
Qed.

Lemma for_app {S A} (l1 l2 : list A) (body : A → M S unit) (s s1 : S) :
  for_ l1 body s = (Val tt, s1) → for_ (l1 ++ l2) body s = for_ l2 body s1.
Proof.
  revert s. induction l1 as [|x l1 IH]; intros s; simpl.
  - unfold ret. by intros [= <-].
  - unfold bind. destruct (body x s) as [[[]|e] s']; [apply IH|by intros [=]].
Qed.

Lemma batch_escalate_loop_app l1 l2 acc acc1 s s1 :
  batch_escalate_loop E l1 acc s = (Val acc1, s1) →
  batch_escalate_loop E (l1 ++ l2) acc s = batch_escalate_loop E l2 acc1 s1.
Proof.
  revert acc s. induction l1 as [|x l1 IH]; intros acc s; simpl.
  - unfold ret. by intros [= <- <-].
  - unfold bind. destruct (batch_escalate_step E acc x s) as [[acc'|e] s'];
      [apply IH|by intros [=]].
Qed.

(** X12: a batch merge stops at the first piece of the id list that does
    not convert.  With a well-behaved [merge_alert_in_case], the alerts named
    before that piece have been merged, each with its status "Merged"
    committed; the pieces after it are not looked at, the note is not
    appended, the exception is logged and its message is the answer. *)
Theorem alerts_batch_merge_route_bad_piece
    (caseid target : Z) (data : EscalationData) (ids_str bad : string)
    (pre rest : list string) (ids : list Z) (e : exn)
    (s : State) (r0 : AlertStatus) (c0 : Case) :
  merge_keeps_alerts E →
  target_case_id data = Some target →
  alert_ids data = Some ids_str → ids_str ≠ "" →
  get_case target (db s) = Some c0 →
  split_on "," ids_str = pre ++ bad :: rest →
  map_outcome (int_of_str E) pre = Val ids →
  int_of_str E bad = Raise e →
  registry_row "Merged" (db s) = Some r0 →
  let o := import_options data None in
  ∃ s1,
    for_ pre (batch_merge_step E target o) s = (Val tt, s1) ∧
    alerts_batch_merge_route E caseid (Object data) s =
      (Val (error (exn_str e)), record_event (EvLogException e) s1) ∧
    trace s1 = trace s ++
      flat_map (λ id, [EvCommit; EvMergeAlertInCase id target o]) (resolved (db s) ids) ∧
    (∀ id, id ∈ resolved (db s) ids → merged_in (status_id r0) (db s1) id).
Proof.
  intros HE Ht Hstr Hne Hc0 Hsplit Hids Hbad Hreg o.
  destruct (batch_merge_loop_run E target o r0 pre HE ids s Hids Hreg)
    as (s1 & Hrun & _ & Htr & _ & Hin & _ & _).
  exists s1. split; [done|]. split; [|done].
  unfold alerts_batch_merge_route. cbn [json_data]. rewrite Ht, Hstr.
  rewrite (str_truthy_Some _ Hne). cbn [negb].
  change (default "" (Some ids_str)) with ids_str.
  unfold bind at 1, get at 1. rewrite Hc0, Hsplit.
  unfold try_except. unfold bind at 1. fold o.
  rewrite (for_app _ _ _ _ _ Hrun). simpl.
  unfold bind at 1. unfold batch_merge_step at 1. unfold bind at 1, lift at 1.
  rewrite Hbad. reflexivity.
Qed.

(** X13: a batch escalation stops at the first piece of the id list that
    does not convert: the exception is logged, its message is the answer, and
    no case is created.  The alerts named before that piece keep the status
    "Merged" that was assigned to them and committed. *)
Theorem alerts_batch_escalate_route_bad_piece
    (caseid : Z) (data : EscalationData) (ids_str bad : string)
    (pre rest : list string) (ids : list Z) (e : exn)
    (s : State) (r0 : AlertStatus) :
  alert_ids data = Some ids_str → ids_str ≠ "" →
  split_on "," ids_str = pre ++ bad :: rest →
  map_outcome (int_of_str E) pre = Val ids →
  int_of_str E bad = Raise e →
  registry_row "Merged" (db s) = Some r0 →
  let sid := status_id r0 in
  let batch := resolved (db s) ids in
  let d1 := batch_committed sid (db s) batch in
  alerts_batch_escalate_route E caseid (Object data) s =
    (Val (error (exn_str e)),
     mkState d1 (ticks s)
       (trace s ++ replicate (length batch) EvCommit ++ [EvLogException e])) ∧
  (∀ id, id ∈ batch →
     status_of (session d1) id = Some (Some sid) ∧
     status_of (durable d1) id = Some (Some sid)).
Proof.
  intros Hstr Hne Hsplit Hids Hbad Hreg sid batch d1. split.
  - unfold alerts_batch_escalate_route. cbn [json_data]. rewrite Hstr.
    rewrite (str_truthy_Some _ Hne). cbn [negb].
    change (default "" (Some ids_str)) with ids_str. rewrite Hsplit.
    unfold try_except. unfold bind at 1.
    rewrite (batch_escalate_loop_app _ _ _ _ _ _
               (batch_escalate_loop_run E r0 pre ids [] s Hids Hreg)).
    simpl. unfold bind at 1. unfold batch_escalate_step at 1.
    unfold bind at 1, lift at 1. rewrite Hbad.
    unfold bind, log_exception, modify, ret, record_event. cbn [db ticks trace].
    by rewrite <- app_assoc.
  - intros id Hin. apply batch_committed_status; [done|].
    by apply elem_of_resolved in Hin as [? _].
Qed.

(** X14: a batch update is not undone when an alert is rejected.  When
    the ids before [m] have been processed and the schema rejects the update
    of [m], the answer is the message of that exception, in the state the
    processed ids left: their updates stay committed, and the ids after [m]
    are not looked at.  And when [updates] is not an object, the first alert
    already stops the batch, with the message of the [AttributeError]. *)
Theorem alerts_batch_update_route_load_fails
    (caseid : Z) (data : BatchUpdateData) (pre rest : list Z) (m : Z)
    (s s1 : State) (a : Alert) :
  bu_alert_ids data = Some (pre ++ m :: rest) →
  let updates := default (JObj []) (bu_updates data) in
  for_each pre (batch_update_step E caseid updates) s = (Val None, s1) →
  get_alert_by_id m (db s1) = Some a →
  (∀ kv e, updates = JObj kv → alert_schema_load E updates m a = Raise e →
     alerts_batch_update_route E caseid (Object data) s =
       (Val (error (exn_str e)), record_event EvSchemaLoad s1)) ∧
  (∀ e, py_items updates = Raise e →
     alerts_batch_update_route E caseid (Object data) s = (Val (error (exn_str e)), s1) ∧
     pre = []).
Proof.
  intros Hids updates Hpre Hm.
  assert (Hroute : alerts_batch_update_route E caseid (Object data) s =
    (r <- for_each (m :: rest) (batch_update_step E caseid updates) ;;
     match r with
     | Some resp => ret resp
     | None => ret (response_success (Some "Batch update successful") PNone)
     end) s1).
  { unfold alerts_batch_update_route. rewrite Hids.
    change (default [] (Some (pre ++ m :: rest))) with (pre ++ m :: rest).
    destruct (pre ++ m :: rest) as [|x l] eqn:Hl; [by destruct pre|].
    rewrite <- Hl. unfold bind at 1. fold updates.
    by rewrite (for_each_app _ _ _ _ _ Hpre). }
  split.
  - intros kv e Hkv Hload. rewrite Hroute. simpl.
    unfold bind at 1. unfold bind at 1. unfold batch_update_step at 1.
    unfold bind at 1, get at 1. rewrite Hm.
    unfold try_except. unfold bind at 1, lift at 1. rewrite Hkv at 1. cbn [py_items].
    unfold bind at 1. unfold call at 1. rewrite Hload. reflexivity.
  - intros e Hitems. split.
    + rewrite Hroute. simpl.
      unfold bind at 1. unfold bind at 1. unfold batch_update_step at 1.
      unfold bind at 1, get at 1. rewrite Hm.
      unfold try_except. unfold bind at 1, lift at 1. rewrite Hitems. reflexivity.
    + destruct pre as [|x pre]; [done|]. exfalso. simpl in Hpre.
      unfold bind at 1 in Hpre. unfold batch_update_step at 1 in Hpre.
      unfold bind at 1, get at 1 in Hpre.
      destruct (get_alert_by_id x (db s)); [|by unfold ret in Hpre].
      unfold try_except in Hpre. unfold bind at 1, lift at 1 in Hpre.
      fold updates in Hpre. rewrite Hitems in Hpre. by unfold ret in Hpre.
Qed.

(** X15: a comment the schema rejects.  For an existing alert, when
    [CommentSchema().load] raises a [ValidationError] the route answers
    "Data error" with the status 400 and the messages of the exception; when
    it raises anything else the route raises it.  In both cases nothing was
    added to the session or committed, and the clock was not read. *)
Theorem case_comment_add_rejected
    (alert_id caseid current_user_id : Z) (body : json) (s : State)
    (a : Alert) (e : exn) :
  get_alert_by_id alert_id (db s) = Some a →
  comment_schema_load E body = Raise e →
  case_comment_add E alert_id caseid current_user_id body s =
    (if is_validation_error (exn_cls e)
     then Val (response_error "Data error" (PMessages (exn_str e)) (Some 400%Z))
     else Raise e,
     record_event EvSchemaLoad s).
Proof.
  intros Ha Hload. unfold case_comment_add, try_except_class.
  unfold bind at 1, get at 1. rewrite Ha.
  unfold bind at 1, call at 1. rewrite Hload. cbn [db ticks trace].
  unfold record_event. by destruct (is_validation_error (exn_cls e)).
Qed.

(** X16: a comment is committed before its history entry is written.
    When [add_obj_history_entry] raises, the comment is already in the
    committed table of the database the helper was called on, and nothing
    takes it back: the route raises the exception (or, for a
    [ValidationError], answers "Data error" with the status 400) in the
    state the helper left. *)
Theorem case_comment_add_history_fails
    (alert_id caseid current_user_id : Z) (body : json) (s : State)
    (a : Alert) (c0 : Comment) (e : exn) (d1 : DB) :
  get_alert_by_id alert_id (db s) = Some a →
  comment_schema_load E body = Val c0 →
  let c := mkComment (comment_text c0) (Some alert_id) (Some current_user_id)
             (Some (now_reading E (ticks s))) (Some (now_reading E (S (ticks s)))) in
  let d0 := commit (with_session (with_comments (λ l, l ++ [c])) (db s)) in
  add_obj_history_entry E (RefAlert alert_id) "commented" d0 = (Raise e, d1) →
  c ∈ comments (durable d0) ∧
  case_comment_add E alert_id caseid current_user_id body s =
    (if is_validation_error (exn_cls e)
     then Val (response_error "Data error" (PMessages (exn_str e)) (Some 400%Z))
     else Raise e,
     mkState d1 (S (S (ticks s)))
       (trace s ++ [EvSchemaLoad; EvSessionAdd c; EvCommit;
                    EvHistoryEntry (RefAlert alert_id) "commented"])).
Proof.
  intros Ha Hload c d0 Hh. split.
  - unfold d0. simpl. apply elem_of_app. right. left.
  - unfold case_comment_add, try_except_class.
    unfold bind at 1, get at 1. rewrite Ha.
    unfold bind at 1, call at 1. rewrite Hload.
    unfold bind at 1. unfold datetime_now at 1.
    unfold bind at 1. unfold datetime_now at 1.
    unfold bind at 1. unfold db_session_add, modify.
    unfold bind at 1. unfold db_session_commit at 1. unfold modify.
    unfold bind at 1. unfold call at 1. cbn [db ticks trace with_db record_event].
    change (with_comment_update_date _ _) with c. fold d0. rewrite Hh.
    rewrite <- !app_assoc. cbn [app].
    by destruct (is_validation_error (exn_cls e)).
Qed.






End more_routes.

Section more_helpers.
Context (E : Collaborators) (H : Helpers).


Lemma alerts_delete_route_Some alert_id caseid s a d1 :
  get_alert_by_id alert_id (db s) = Some a →
  delete_similar_alert_cache H alert_id (db s) = (Val tt, d1) →
  alerts_delete_route H alert_id caseid s =
    (Val (alert_success None (DAlertId alert_id)),
     mkState (commit (with_session (with_alerts (delete alert_id)) d1))
       (ticks s) (trace s ++ [EvCommit])).
Proof.
  intros Ha Hc. unfold alerts_delete_route. unfold bind at 1, get at 1. rewrite Ha.
  unfold try_except. unfold bind at 1. unfold run at 1. rewrite Hc.
  unfold bind, db_session_delete, modify, db_session_commit, modify, ret.
  reflexivity.
Qed.

(** X20: deleting an alert.  When the deletion of the similarity cache
    returns, the alert is deleted and the deletion committed: no alert with
    this id is left in the session or in the committed table, and every other
    alert is as the cache deletion left it.  When the cache deletion raises,
    the route answers with the exception's message and the alert is not
    deleted: nothing is removed and nothing committed. *)
Theorem alerts_delete_route_run
    (alert_id caseid : Z) (s : State) (a : Alert)
    (res : outcome unit) (d1 : DB) :
  get_alert_by_id alert_id (db s) = Some a →
  delete_similar_alert_cache H alert_id (db s) = (res, d1) →
  (res = Val tt →
     ∃ s', alerts_delete_route H alert_id caseid s =
             (Val (alert_success None (DAlertId alert_id)), s') ∧
           get_alert_by_id alert_id (db s') = None ∧
           alerts (durable (db s')) !! alert_id = None ∧
           (∀ id, id ≠ alert_id → get_alert_by_id id (db s') = get_alert_by_id id d1) ∧
           trace s' = trace s ++ [EvCommit]) ∧
  (∀ e, res = Raise e →
     alerts_delete_route H alert_id caseid s =
       (Val (alert_error (exn_str e)), mkState d1 (ticks s) (trace s))).
Proof.
  intros Ha Hc. split.
  - intros ->. eexists. split; [by apply (alerts_delete_route_Some _ _ _ a)|].
    cbn [db trace]. unfold get_alert_by_id. simpl.
    split; [apply lookup_delete_eq|]. split; [apply lookup_delete_eq|].
    split; [|done]. intros id Hid. by apply lookup_delete_ne.
  - intros e ->. unfold alerts_delete_route. unfold bind at 1, get at 1. rewrite Ha.
    unfold try_except. unfold bind at 1. unfold run at 1. by rewrite Hc.
Qed.


(** X22: the checks of the unmerge route, in their order: the JSON body,
    the target case id, the alert, the target case; a request that fails one
    of them is answered with that check's message and changes nothing.  A
    request that passes them changes the database only through
    [unmerge_alert_from_case]: the route assigns no status and commits
    nothing.  It answers with the exception's message when the helper raises,
    with the helper's message as an error when the success value is [False],
    and otherwise with the alert and that message. *)
Theorem alerts_unmerge_route_checks
    (alert_id caseid : Z) (data : EscalationData) (s : State) :
  alerts_unmerge_route H alert_id caseid NoJson s =
    (Val (alert_error "No JSON data provided"), s) ∧
  alerts_unmerge_route H alert_id caseid EmptyObject s =
    (Val (alert_error "No target case id provided"), s) ∧
  (target_case_id data = None →
   alerts_unmerge_route H alert_id caseid (Object data) s =
     (Val (alert_error "No target case id provided"), s)) ∧
  (∀ target, target_case_id data = Some target →
     (get_alert_by_id alert_id (db s) = None →
      alerts_unmerge_route H alert_id caseid (Object data) s =
        (Val (alert_error "Alert not found"), s)) ∧
     (is_Some (get_alert_by_id alert_id (db s)) → get_case target (db s) = None →
      alerts_unmerge_route H alert_id caseid (Object data) s =
        (Val (alert_error "Target case not found"), s)) ∧
     (is_Some (get_alert_by_id alert_id (db s)) → is_Some (get_case target (db s)) →
      ∀ res d1, unmerge_alert_from_case H alert_id target (db s) = (res, d1) →
        let r := alerts_unmerge_route H alert_id caseid (Object data) s in
        r.2 = mkState d1 (ticks s) (trace s) ∧
        (∀ e, res = Raise e → r.1 = Val (alert_error (exn_str e))) ∧
        (∀ success message, res = Val (success, message) →
           is_False success = true → r.1 = Val (alert_error message)) ∧
        (∀ success message a1, res = Val (success, message) →
           is_False success = false → get_alert_by_id alert_id d1 = Some a1 →
           r.1 = Val (alert_success (Some message) (DAlert alert_id a1))))).
Proof.
  split; [done|]. split; [done|]. split.
  { intros Ht. unfold alerts_unmerge_route. cbn [json_data]. by rewrite Ht. }
  intros target Ht. split; [|split].
  { unfold alerts_unmerge_route. cbn [json_data]. rewrite Ht.
    unfold bind, get. by intros ->. }
  { unfold alerts_unmerge_route. cbn [json_data]. rewrite Ht.
    unfold bind, get. by intros [a ->] ->. }
  intros [a Ha] [c Hc] res d1 Hu r.
  assert (Hr : r =
    (Val match res with
         | Raise e => alert_error (exn_str e)
         | Val (success, message) =>
             if is_False success then alert_error message
             else match get_alert_by_id alert_id d1 with
                  | Some a1 => alert_success (Some message) (DAlert alert_id a1)
                  | None => alert_error "Instance has been deleted"
                  end
         end,
     mkState d1 (ticks s) (trace s))).
  { unfold r, alerts_unmerge_route. cbn [json_data]. rewrite Ht.
    unfold bind at 1, get at 1. rewrite Ha, Hc.
    unfold try_except. unfold bind at 1. unfold run at 1. rewrite Hu.
    destruct res as [[success message]|e]; [|done]. cbn [fst snd].
    destruct (is_False success); [done|].
    unfold bind, dump_alert, bind, get. cbn [db].
    by destruct (get_alert_by_id alert_id d1). }
  rewrite Hr. cbn [fst snd]. split; [done|]. split; [by intros e ->|]. split.
  - by intros success message -> ->.
  - by intros success message a1 -> -> ->.
Qed.

Lemma split_on_no_sep c s : contains c s = false → split_on c s = [s].
Proof.
  induction s as [|c' s IH]; simpl; [done|].
  intros [Hc Hs]%orb_false_iff. rewrite Hc, (IH Hs). done.
Qed.

(** X23: the ids of the filter route.  For a non-empty [alert_ids]
    argument, with or without a comma in it, the ids are the conversions of
    the pieces between commas: when all pieces convert the query runs with
    their list; when a piece raises a [ValueError] the answer is "Invalid
    alert id" and no query is run.  A missing and an empty argument both run
    the query with no id filter. *)
Theorem alerts_list_route_ids (alert_ids_str : string) (s : State) :
  alert_ids_str ≠ "" →
  (∀ ids, map_outcome (int_of_str E) (split_on "," alert_ids_str) = Val ids →
     alerts_list_route E H (Some alert_ids_str) s = list_page H (Some ids) s) ∧
  (∀ e, map_outcome (int_of_str E) (split_on "," alert_ids_str) = Raise e →
     exn_cls e = ValueError →
     alerts_list_route E H (Some alert_ids_str) s =
       (Val (alert_error "Invalid alert id"), s)) ∧
  alerts_list_route E H None s = list_page H None s ∧
  alerts_list_route E H (Some "") s = list_page H None s.
Proof.
  intros Hne.
  assert (Hparse : list_alert_ids E (Some alert_ids_str) s =
    (match map_outcome (int_of_str E) (split_on "," alert_ids_str) with
     | Val ids => Val (inr (Some ids))
     | Raise e => if is_value_error (exn_cls e)
                  then Val (inl (alert_error "Invalid alert id")) else Raise e
     end, s)).
  { unfold list_alert_ids. rewrite (str_truthy_Some _ Hne).
    change (default "" (Some alert_ids_str)) with alert_ids_str.
    unfold try_except_class. unfold bind at 1.
    destruct (contains "," alert_ids_str) eqn:Hc.
    - rewrite CaseTasksDbProps.map_raising_outcome.
      destruct (map_outcome _ _) as [ids|e]; [done|].
      by destruct (is_value_error (exn_cls e)).
    - rewrite (split_on_no_sep _ _ Hc). simpl. unfold bind, lift.
      destruct (int_of_str E alert_ids_str) as [i|e]; [done|].
      by destruct (is_value_error (exn_cls e)). }
  split; [|split; [|done]].
  - intros ids Hids. unfold alerts_list_route. unfold bind at 1.
    by rewrite Hparse, Hids.
  - intros e He Hcls. unfold alerts_list_route. unfold bind at 1.
    by rewrite Hparse, He, Hcls.
Qed.

End more_helpers.

Local Open Scope Z_scope.

(** An instance: alert 5 escalated with an empty status registry. *)
Lemma alerts_escalate_route_no_registry_row_witness :
  get_alert_by_id 5 (db bare_state) = Some (mkAlert (Some 1) [("alert_title", JStr "Beacon")]) ∧
  registry_row "Escalated" (db bare_state) = None ∧
  alerts_escalate_route demo_env 5 1 (Object no_escalation_data) bare_state =
    (Val (error "'NoneType' object has no attribute 'status_id'"),
     mkState (db bare_state) 0
       [EvLogException
          (Exn AttributeError "'NoneType' object has no attribute 'status_id'")]).
Proof.
  split; [reflexivity|]. split; [reflexivity|].
  destruct (alerts_escalate_route_no_registry_row demo_env 5 1 10 no_escalation_data
              bare_state _ eq_refl) as [H _].
  exact (H eq_refl).
Defined.

(** An instance: alert 5 merged into case 10 while the merge raises. *)
Lemma alerts_merge_route_run_witness :
  let data := mkEscalationData (Some 10) None None None (Some "see ticket") None None None in
  target_case_id data = Some 10 ∧
  is_Some (get_alert_by_id 5 (db demo_state)) ∧
  is_Some (get_case 10 (db demo_state)) ∧
  registry_row "Merged" (db demo_state) = Some (mkAlertStatus 5 "Merged") ∧
  ∃ s', alerts_merge_route raising_env 5 1 (Object data) demo_state =
          (Val (error "case is closed"), s') ∧
        status_of (durable (db s')) 5 = Some (Some 5) ∧
        trace s' = [EvCommit;
                    EvMergeAlertInCase 5 10
                      (mkImportOptions None None (Some "see ticket") None None)].
Proof.
  intros data. split; [reflexivity|]. split; [by eexists|]. split; [by eexists|].
  split; [reflexivity|].
  destruct (alerts_merge_route_run raising_env 5 1 10 data demo_state _ _ _
              (Raise (Exn OtherException "case is closed"))
              (status_committed 5 5 (db demo_state))
              eq_refl eq_refl eq_refl eq_refl eq_refl) as (Hst & _ & Hraise & _).
  eexists. split; [exact (Hraise _ eq_refl)|]. split; [exact Hst|reflexivity].
Defined.

(** An instance: the ids "5,x,9"; alert 5 is merged, alert 9 is not
    reached. *)
Lemma alerts_batch_merge_route_bad_piece_witness :
  let data := mkEscalationData (Some 10) (Some "5,x,9") None None (Some "see ticket")
                None None None in
  merge_keeps_alerts demo_env ∧
  split_on "," "5,x,9" = ["5"] ++ "x" :: ["9"] ∧
  map_outcome (int_of_str demo_env) ["5"] = Val [5] ∧
  int_of_str demo_env "x" = Raise (invalid_literal "x") ∧
  ∃ s1,
    alerts_batch_merge_route demo_env 1 (Object data) demo_state =
      (Val (error "invalid literal for int() with base 10: 'x'"),
       record_event (EvLogException (invalid_literal "x")) s1) ∧
    merged_in 5 (db s1) 5 ∧
    status_of (session (db s1)) 9 = Some (Some 1).
Proof.
  intros data. split; [exact demo_env_merge_keeps_alerts|].
  split; [reflexivity|]. split; [reflexivity|]. split; [reflexivity|].
  destruct (alerts_batch_merge_route_bad_piece demo_env 1 10 data "5,x,9" "x" ["5"] ["9"]
              [5] (invalid_literal "x") demo_state (mkAlertStatus 5 "Merged")
              (mkCase "Intrusion" (Some "Initial report"))
              demo_env_merge_keeps_alerts eq_refl eq_refl ltac:(done) eq_refl eq_refl
              eq_refl eq_refl eq_refl) as (s1 & Hpre & Hrun & _ & Hin).
  exists s1. split; [exact Hrun|]. split.
  - apply Hin. vm_compute. left.
  - vm_compute in Hpre. injection Hpre as <-. reflexivity.
Defined.

(** An instance: the ids "5,x,9"; alert 5 is left "Merged", no case is
    created. *)
Lemma alerts_batch_escalate_route_bad_piece_witness :
  let data := mkEscalationData None (Some "5,x,9") None None None None None
                (Some "Campaign") in
  split_on "," "5,x,9" = ["5"] ++ "x" :: ["9"] ∧
  map_outcome (int_of_str demo_env) ["5"] = Val [5] ∧
  int_of_str demo_env "x" = Raise (invalid_literal "x") ∧
  registry_row "Merged" (db demo_state) = Some (mkAlertStatus 5 "Merged") ∧
  alerts_batch_escalate_route demo_env 1 (Object data) demo_state =
    (Val (error "invalid literal for int() with base 10: 'x'"),
     mkState (batch_committed 5 (db demo_state) [5]) 0
       [EvCommit; EvLogException (invalid_literal "x")]) ∧
  status_of (durable (batch_committed 5 (db demo_state) [5])) 5 = Some (Some 5).
Proof.
  intros data. split; [reflexivity|]. split; [reflexivity|]. split; [reflexivity|].
  split; [reflexivity|].
  destruct (alerts_batch_escalate_route_bad_piece demo_env 1 data "5,x,9" "x" ["5"] ["9"]
              [5] (invalid_literal "x") demo_state (mkAlertStatus 5 "Merged")
              eq_refl ltac:(done) eq_refl eq_refl eq_refl eq_refl) as [Hrun Hst].
  split; [exact Hrun|]. apply (Hst 5). vm_compute. left.
Defined.

(** An instance: the title of alerts 5 and 9 is updated; the schema
    rejects the update of alert 9, and alert 5 keeps its new title. *)
Lemma alerts_batch_update_route_load_fails_witness :
  let updates := JObj [("alert_title", JStr "Spear phish")] in
  let data := mkBatchUpdateData (Some [5; 9]) (Some updates) in
  let s1 := (for_each [5] (batch_update_step locked_env 1 updates) demo_state).2 in
  bu_alert_ids data = Some ([5] ++ 9 :: []) ∧
  for_each [5] (batch_update_step locked_env 1 updates) demo_state = (Val None, s1) ∧
  is_Some (get_alert_by_id 9 (db s1)) ∧
  alerts_batch_update_route locked_env 1 (Object data) demo_state =
    (Val (error "{'alert_id': ['Alert 9 is read-only.']}"), record_event EvSchemaLoad s1) ∧
  getattr_alert 5 (default (mkAlert None []) (alerts (durable (db s1)) !! 5)) "alert_title"
    = JStr "Spear phish".
Proof.
  intros updates data s1.
  split; [reflexivity|].
  assert (Hpre : for_each [5] (batch_update_step locked_env 1 updates) demo_state
                 = (Val None, s1)) by (by vm_compute).
  split; [exact Hpre|]. split; [by eexists|].
  destruct (alerts_batch_update_route_load_fails locked_env 1 data [5] [] 9 demo_state s1
              (mkAlert (Some 1) [("alert_title", JStr "Phish")])
              eq_refl Hpre eq_refl) as [H _].
  split; [exact (H _ _ eq_refl eq_refl)|]. reflexivity.
Defined.

(** An instance: a comment with no text on alert 5. *)
Lemma case_comment_add_rejected_witness :
  is_Some (get_alert_by_id 5 (db demo_state)) ∧
  comment_schema_load demo_env (JObj []) =
    Raise (Exn ValidationError "{'comment_text': ['Missing data']}") ∧
  case_comment_add demo_env 5 1 2 (JObj []) demo_state =
    (Val (response_error "Data error" (PMessages "{'comment_text': ['Missing data']}")
            (Some 400)),
     record_event EvSchemaLoad demo_state).
Proof.
  split; [by eexists|]. split; [reflexivity|].
  apply (case_comment_add_rejected demo_env 5 1 2 (JObj []) demo_state
           (mkAlert (Some 1) [("alert_title", JStr "Beacon")])
           (Exn ValidationError "{'comment_text': ['Missing data']}"));
    reflexivity.
Defined.

(** An instance: the history entry of a comment on alert 5 fails. *)
Lemma case_comment_add_history_fails_witness :
  let body := JObj [("comment_text", JStr "Seen before")] in
  let c := mkComment (Some "Seen before") (Some 5) (Some 2) (Some 1000) (Some 1001) in
  is_Some (get_alert_by_id 5 (db demo_state)) ∧
  comment_schema_load raising_env body = Val (mkComment (Some "Seen before") None None None None) ∧
  (∃ s', case_comment_add raising_env 5 1 2 body demo_state =
           (Raise (Exn OtherException "history is full"), s') ∧
         c ∈ comments (durable (db s'))).
Proof.
  intros body c. split; [by eexists|]. split; [reflexivity|].
  destruct (case_comment_add_history_fails raising_env 5 1 2 body demo_state
              (mkAlert (Some 1) [("alert_title", JStr "Beacon")])
              (mkComment (Some "Seen before") None None None None)
              (Exn OtherException "history is full")
              (commit (with_session (with_comments (λ l, l ++ [c])) (db demo_state)))
              eq_refl eq_refl eq_refl) as [Hin Hrun].
  eexists. split; [exact Hrun|]. exact Hin.
Defined.



(** An instance: alert 5 is deleted, alert 9 stays; and with a cache
    deletion that fails alert 5 stays. *)
Lemma alerts_delete_route_run_witness :
  is_Some (get_alert_by_id 5 (db demo_state)) ∧
  delete_similar_alert_cache demo_helpers 5 (db demo_state) = (Val tt, db demo_state) ∧
  (∃ s', alerts_delete_route demo_helpers 5 1 demo_state =
           (Val (alert_success None (DAlertId 5)), s') ∧
         get_alert_by_id 5 (db s') = None ∧
         alerts (durable (db s')) !! 5 = None ∧
         get_alert_by_id 9 (db s') = get_alert_by_id 9 (db demo_state)) ∧
  alerts_delete_route failing_helpers 5 1 demo_state =
    (Val (alert_error "cache unavailable"), demo_state).
Proof.
  split; [by eexists|]. split; [reflexivity|]. split.
  - destruct (alerts_delete_route_run demo_helpers 5 1 demo_state
                (mkAlert (Some 1) [("alert_title", JStr "Beacon")]) (Val tt) (db demo_state)
                eq_refl eq_refl) as [H _].
    destruct (H eq_refl) as (s' & Hrun & Hs & Hd & Hother & _).
    exists s'. split; [exact Hrun|]. split; [exact Hs|]. split; [exact Hd|].
    apply Hother. done.
  - destruct (alerts_delete_route_run failing_helpers 5 1 demo_state
                (mkAlert (Some 1) [("alert_title", JStr "Beacon")])
                (Raise (Exn OtherException "cache unavailable")) (db demo_state)
                eq_refl eq_refl) as [_ H].
    exact (H _ eq_refl).
Defined.


(** An instance: the arguments "5,9", "5" and "5,". *)
Lemma alerts_list_route_ids_witness :
  ("5,9" ≠ "" ∧
   alerts_list_route demo_env demo_helpers (Some "5,9") demo_state =
     list_page demo_helpers (Some [5; 9]) demo_state) ∧
  ("5" ≠ "" ∧
   alerts_list_route demo_env demo_helpers (Some "5") demo_state =
     list_page demo_helpers (Some [5]) demo_state) ∧
  ("5," ≠ "" ∧
   alerts_list_route demo_env demo_helpers (Some "5,") demo_state =
     (Val (alert_error "Invalid alert id"), demo_state)).
Proof.
  split; [|split].
  - split; [done|].
    destruct (alerts_list_route_ids demo_env demo_helpers "5,9" demo_state ltac:(done))
      as [H _].
    exact (H [5; 9] eq_refl).
  - split; [done|].
    destruct (alerts_list_route_ids demo_env demo_helpers "5" demo_state ltac:(done))
      as [H _].
    exact (H [5] eq_refl).
  - split; [done|].
    destruct (alerts_list_route_ids demo_env demo_helpers "5," demo_state ltac:(done))
      as (_ & H & _).
    exact (H (invalid_literal "") eq_refl eq_refl).
Defined.

End AlertsRoutesMoreProps.
